(** * Signature verification support of glance ([glance/common/signature_utils.py])

    A shallow embedding of the module that builds a signature verifier from
    the properties of an image: the algorithm tables, the registry of
    signature key types, the per-type verifier constructors, the retrieval
    and validation of the signing certificate and the entry point
    [get_verifier].

    Python exceptions are values of [exn]; a computation is a pair of the
    calls it made, in order, and of what it returned or raised.  The
    collaborators the module imports (castellan's key manager, the
    [cryptography] backend, the base64 decoder and the clock) are the fields
    of an environment [Env]. *)

From Stdlib Require Import ZArith Ascii String List Lia.
From stdpp Require Import base option gmap strings list fin_maps.

Local Open Scope string_scope.
Local Open Scope Z_scope.
Local Open Scope list_scope.

(** ** Data model *)

(** [bytes] objects: a decoded signature, a DER-encoded certificate. *)
Definition bytes := list Byte.byte.

(** The opaque user context that is handed to the key manager. *)
Definition Context := string.

(** A naive UTC [datetime]: the number of microseconds since the epoch.
    Python compares two naive datetimes as it compares these numbers. *)
Definition datetime := Z.

(** The image properties: a [dict] from property names to strings. *)
Abbreviation ImageProperties := (gmap string string).

(** [k in d] for a dictionary [d]. *)
Definition contains {V : Type} (k : string) (d : gmap string V) : bool :=
  match d !! k with
  | Some _ => true
  | None => false
  end.

(** The hash algorithms of [cryptography.hazmat.primitives.hashes] the module
    uses. *)
Inductive HashAlgorithm := SHA224 | SHA256 | SHA384 | SHA512.

(** The public-key interfaces of [cryptography] a key type may expect. *)
Inductive PublicKeyClass := RSAPublicKey | DSAPublicKey | EllipticCurvePublicKey.

#[global] Instance PublicKeyClass_eq_dec : EqDecision PublicKeyClass.
Proof. solve_decision. Defined.

(** The elliptic curves of [ECC_CURVES]. *)
Inductive Curve := SECT571K1 | SECT409K1 | SECT571R1 | SECT409R1 | SECP521R1 | SECP384R1.

(** [curve.name] *)
Definition curve_name (c : Curve) : string :=
  match c with
  | SECT571K1 => "sect571k1"
  | SECT409K1 => "sect409k1"
  | SECT571R1 => "sect571r1"
  | SECT409R1 => "sect409r1"
  | SECP521R1 => "secp521r1"
  | SECP384R1 => "secp384r1"
  end.

(** A public key object: the interface its class implements and its
    material. *)
Record PublicKey := {
  key_class : PublicKeyClass;
  key_material : bytes
}.

(** [isinstance(public_key, public_key_type)] *)
Definition isinstance (public_key : PublicKey) (public_key_type : PublicKeyClass) : bool :=
  bool_decide (key_class public_key = public_key_type).

(** A [cryptography] certificate object, as far as the module reads it. *)
Record Certificate := {
  not_valid_before : datetime;
  not_valid_after : datetime;
  public_key : PublicKey
}.

(** The managed object castellan returns: [cert.format] and
    [cert.get_encoded()]. *)
Record ManagedObject := {
  format : string;
  get_encoded : bytes
}.

(** [padding.MGF1(hash_method)] *)
Inductive MGF := MGF1 (algorithm : HashAlgorithm).

(** The salt length of a PSS padding: the sentinel [padding.PSS.MAX_LENGTH]
    or an integer. *)
Inductive SaltLength := MAX_LENGTH | Length (n : Z).

(** [padding.PSS(mgf=mgf, salt_length=salt_length)] *)
Record PSS := {
  mgf : MGF;
  salt_length : SaltLength
}.

(** The arguments of a call [public_key.verifier(...)], one shape per
    constructor of the module. *)
Inductive VerifierArgs :=
| PssArgs (signature : bytes) (padding : PSS) (hash_method : HashAlgorithm)
| EcdsaArgs (signature : bytes) (ECDSA_algorithm : HashAlgorithm)
| DsaArgs (signature : bytes) (hash_method : HashAlgorithm).

(** A verification context, bound to the key and the arguments it was made
    from. *)
Record Verifier := {
  verifier_key : PublicKey;
  verifier_args : VerifierArgs
}.

(** ** Exceptions, calls and computations *)

(** The messages of [exception.SignatureVerificationError] the module
    raises, each with the value it formats into the text. *)
Inductive Message :=
| MissingSignatureMetadata
    (* Required image properties for signature verification do not exist.
       Cannot verify signature. *)
| InvalidSignatureEncoding
    (* The signature data was not properly encoded using base64 *)
| InvalidHashMethod (hash_method_name : string)
    (* Invalid signature hash method: %s *)
| InvalidKeyType (name : string)
    (* Invalid signature key type: %s *)
| InvalidMaskGenAlgorithm (mask_gen_algorithm : string)
    (* Invalid mask_gen_algorithm: %s *)
| InvalidPssSaltLength (pss_salt_length : string)
    (* Invalid pss_salt_length: %s *)
| UnableToRetrieveCertificate (signature_certificate_uuid : string)
    (* Unable to retrieve certificate with ID: %s *)
| InvalidCertificateFormat (cert_format : string)
    (* Invalid certificate format: %s *)
| CertificateFormatNotSupported (cert_format : string)
    (* Certificate format not supported: %s *)
| CertificateNotYetValid (bound : datetime)
    (* Certificate is not valid before: %s UTC *)
| CertificateExpired (bound : datetime)
    (* Certificate is not valid after: %s UTC *)
| KeyTypeMismatch (signature_key_type : string)
    (* Invalid public key type for signature key type: %s *)
| AlgorithmUnsupported
    (* Unable to verify signature since the algorithm is unsupported on this
       system *)
| VerifierCreationError
    (* Error occurred while creating the verifier *).

(** The exceptions that can leave a function of the module. *)
Inductive exn :=
| SignatureVerificationError (msg : Message)
| UnsupportedAlgorithm
| ValueError
| TypeError
| KeyError (key : string).

(** The calls a run leaves in its trace: the steps of [get_verifier] and the
    calls to the collaborators. *)
Inductive Event :=
| Ev_should_create_verifier
| Ev_get_signature (signature_data : string)
| Ev_get_hash_method (hash_method_name : string)
| Ev_lookup (name : string)
| Ev_keymgr_get (context : Context) (signature_certificate_uuid : string)
| Ev_load_der_x509_certificate (cert_data : bytes)
| Ev_verify_certificate (certificate : Certificate)
| Ev_public_key (certificate : Certificate)
| Ev_create_verifier (name : string) (public_key_type : PublicKeyClass)
    (key : PublicKey).

Inductive Outcome (A : Type) :=
| Returns (a : A)
| Raises (e : exn).

Arguments Returns {A} a.
Arguments Raises {A} e.

(** A computation: the calls made so far and the outcome. *)
Definition M (A : Type) : Type := list Event * Outcome A.

Definition ret {A : Type} (a : A) : M A := ([], Returns a).

Definition raise {A : Type} (e : exn) : M A := ([], Raises e).

Definition tell (e : Event) : M unit := ([e], Returns tt).

Definition bind {A B : Type} (m : M A) (k : A -> M B) : M B :=
  match m with
  | (t, Returns a) => let (t', r) := k a in (t ++ t', r)
  | (t, Raises e) => (t, Raises e)
  end.

Definition trace {A : Type} (m : M A) : list Event := fst m.

Definition outcome {A : Type} (m : M A) : Outcome A := snd m.

Declare Scope py_scope.
Delimit Scope py_scope with py.
Notation "x <- m ;; k" := (bind m (fun x => k))
  (at level 100, m at next level, right associativity) : py_scope.
Notation "m ;; k" := (bind m (fun _ => k))
  (at level 100, right associativity) : py_scope.
Local Open Scope py_scope.

(** What a call [public_key.verifier(...)] of the backend does: it returns a
    verification context, returns an object that is false in a condition,
    raises [UnsupportedAlgorithm], or rejects an argument with [ValueError]
    or [TypeError]. *)
Inductive BackendOutcome :=
| Built (verifier : Verifier)
| BuiltFalse
| Unsupported
| RejectsValue
| RejectsType.

(** The collaborators of the module. *)
Record Env := {
  (** [key_manager.API().get(context, id)]; [None] when it raises *)
  keymgr_get : Context -> string -> option ManagedObject;
  (** [x509.load_der_x509_certificate]; [None] when it raises [ValueError] *)
  load_der_x509_certificate : bytes -> option Certificate;
  (** [datetime.datetime.utcnow()] *)
  utcnow : datetime;
  (** [base64.decode_as_bytes]; [None] when it raises [TypeError] or
      [binascii.Error] *)
  decode_as_bytes : string -> option bytes;
  (** [default_backend().elliptic_curve_supported] *)
  elliptic_curve_supported : Curve -> bool;
  (** [public_key.verifier], with the construction of its padding argument *)
  backend_verifier : PublicKey -> VerifierArgs -> BackendOutcome;
  (** [int(text)], the built-in of the interpreter, on a string: the integer
      it returns, [None] when it raises [ValueError] *)
  int : string -> option Z
}.

(** ** Algorithm tables and property names *)

Definition HASH_METHODS : gmap string HashAlgorithm :=
  list_to_map [("SHA-224", SHA224); ("SHA-256", SHA256);
               ("SHA-384", SHA384); ("SHA-512", SHA512)].

Definition RSA_PSS : string := "RSA-PSS".

Definition DSA : string := "DSA".

Definition ECC_CURVES : list Curve :=
  [SECT571K1; SECT409K1; SECT571R1; SECT409R1; SECP521R1; SECP384R1].

Definition X_509 : string := "X.509".

Definition CERTIFICATE_FORMATS : gset string := {[ X_509 ]}.

Definition MASK_GEN_ALGORITHMS : gmap string (HashAlgorithm -> MGF) :=
  list_to_map [("MGF1", MGF1)].

Definition SIGNATURE : string := "img_signature".

Definition HASH_METHOD : string := "img_signature_hash_method".

Definition KEY_TYPE : string := "img_signature_key_type".

Definition CERT_UUID : string := "img_signature_certificate_uuid".

Definition MASK_GEN_ALG : string := "mask_gen_algorithm".

Definition PSS_SALT_LENGTH : string := "pss_salt_length".

(** ** Plain decimal literals, and [str.upper] on ASCII strings *)

(** The ASCII whitespace that may stand around a number: tab, line feed,
    vertical tab, form feed, carriage return and space. *)
Definition is_space (c : ascii) : bool :=
  let n := Z.of_nat (nat_of_ascii c) in
  ((9 <=? n) && (n <=? 13)) || (n =? 32).

Definition digit_value (c : ascii) : option Z :=
  let n := Z.of_nat (nat_of_ascii c) in
  if (48 <=? n) && (n <=? 57) then Some (n - 48) else None.

Fixpoint lstrip (s : list ascii) : list ascii :=
  match s with
  | c :: r => if is_space c then lstrip r else s
  | [] => []
  end.

Definition strip (s : list ascii) : list ascii :=
  rev (lstrip (rev (lstrip s))).

(** The digits of a decimal literal: one digit or more, where a single
    underscore may stand between two digits.  [after_digit] tells whether the
    character before was a digit. *)
Fixpoint parse_digits (acc : Z) (after_digit : bool) (s : list ascii) : option Z :=
  match s with
  | [] => if after_digit then Some acc else None
  | c :: r =>
      match digit_value c with
      | Some d => parse_digits (10 * acc + d) true r
      | None =>
          if (Ascii.eqb c "_") && after_digit
          then parse_digits acc false r
          else None
      end
  end.

(** The integer a decimal literal denotes: whitespace around it, an
    optional sign, then digits (with single underscores between them, which
    no plain string has); [None] for every other string.  It is the
    reference for what [int] does on the plain strings of
    [int_as_documented]; it is not [int] on other strings (digits and
    whitespace outside ASCII, numbers past the interpreter's limit on
    digits). *)
Definition py_int (s : string) : option Z :=
  match strip (list_ascii_of_string s) with
  | "+"%char :: r => parse_digits 0 false r
  | "-"%char :: r => Z.opp <$> parse_digits 0 false r
  | body => parse_digits 0 false body
  end.

(** A plain character: ASCII whitespace, or a printable ASCII character
    other than the underscore. *)
Definition plain_character (c : ascii) : bool :=
  let n := nat_of_ascii c in
  (is_space c || ((33 <=? n) && (n <=? 126))%nat) && negb (Ascii.eqb c "_").

(** A plain string: plain characters only, 4300 of them at most (the
    interpreter's default limit on the digits of a number it parses). *)
Definition plain_string (s : string) : bool :=
  forallb plain_character (list_ascii_of_string s) &&
  (String.length s <=? 4300)%nat.

(** The [int] of the environment reads plain strings as decimal literals:
    what the built-in does on such strings in every version of the
    interpreter.  Nothing is assumed of it on other strings. *)
Definition int_as_documented (E : Env) : Prop :=
  ∀ s, plain_string s = true → int E s = py_int s.

Definition upper_ascii (c : ascii) : ascii :=
  let n := nat_of_ascii c in
  if ((97 <=? n) && (n <=? 122))%nat then ascii_of_nat (n - 32) else c.

(** [s.upper()] *)
Fixpoint upper (s : string) : string :=
  match s with
  | EmptyString => EmptyString
  | String c r => String (upper_ascii c) (upper r)
  end.

(** ** The registry of signature key types *)

(** [d[k]] for a dictionary [d]. *)
Definition subscript {V : Type} (d : gmap string V) (k : string) : M V :=
  match d !! k with
  | Some v => ret v
  | None => raise (KeyError k)
  end.

(** An object of class [SignatureKeyType].  A constructor returns the object
    the backend built, [None] for one that is false in a condition. *)
Record SignatureKeyType := {
  name : string;
  public_key_type : PublicKeyClass;
  create_verifier :
    bytes -> HashAlgorithm -> PublicKey -> ImageProperties -> M (option Verifier)
}.

(** [SignatureKeyType.register], on the dictionary [_REGISTERED_TYPES] it
    updates. *)
Definition register (registered : gmap string SignatureKeyType)
    (name : string) (public_key_type : PublicKeyClass)
    (create_verifier :
       bytes -> HashAlgorithm -> PublicKey -> ImageProperties -> M (option Verifier))
  : gmap string SignatureKeyType :=
  <[name := {| name := name;
               public_key_type := public_key_type;
               create_verifier := create_verifier |}]> registered.

(** [SignatureKeyType.lookup] *)
Definition lookup (registered : gmap string SignatureKeyType) (name : string)
  : M SignatureKeyType :=
  tell (Ev_lookup name) ;;
  if negb (contains name registered)
  then raise (SignatureVerificationError (InvalidKeyType name))
  else subscript registered name.

(** ** The verifier constructors *)

(** [public_key.verifier(...)] *)
Definition verifier (E : Env) (public_key : PublicKey) (args : VerifierArgs)
  : M (option Verifier) :=
  match backend_verifier E public_key args with
  | Built v => ret (Some v)
  | BuiltFalse => ret None
  | Unsupported => raise UnsupportedAlgorithm
  | RejectsValue => raise ValueError
  | RejectsType => raise TypeError
  end.

Definition create_verifier_for_pss (E : Env) (signature : bytes)
    (hash_method : HashAlgorithm) (public_key : PublicKey)
    (image_properties : ImageProperties) : M (option Verifier) :=
  mgf <-
    (if contains MASK_GEN_ALG image_properties then
       mask_gen_algorithm <- subscript image_properties MASK_GEN_ALG ;;
       if negb (contains mask_gen_algorithm MASK_GEN_ALGORITHMS)
       then raise (SignatureVerificationError
                     (InvalidMaskGenAlgorithm mask_gen_algorithm))
       else
         make <- subscript MASK_GEN_ALGORITHMS mask_gen_algorithm ;;
         ret (make hash_method)
     else ret (MGF1 hash_method)) ;;
  salt_length <-
    (if contains PSS_SALT_LENGTH image_properties then
       pss_salt_length <- subscript image_properties PSS_SALT_LENGTH ;;
       match int E pss_salt_length with
       | Some n => ret (Length n)
       | None => raise (SignatureVerificationError
                          (InvalidPssSaltLength pss_salt_length))
       end
     else ret MAX_LENGTH) ;;
  verifier E public_key
    (PssArgs signature {| mgf := mgf; salt_length := salt_length |} hash_method).

Definition create_verifier_for_ecc (E : Env) (signature : bytes)
    (hash_method : HashAlgorithm) (public_key : PublicKey)
    (image_properties : ImageProperties) : M (option Verifier) :=
  verifier E public_key (EcdsaArgs signature hash_method).

Definition create_verifier_for_dsa (E : Env) (signature : bytes)
    (hash_method : HashAlgorithm) (public_key : PublicKey)
    (image_properties : ImageProperties) : M (option Verifier) :=
  verifier E public_key (DsaArgs signature hash_method).

(** The registry once the module is imported: RSA-PSS, DSA, and one key type
    for each curve of [ECC_CURVES] the backend supports. *)
Definition _REGISTERED_TYPES (E : Env) : gmap string SignatureKeyType :=
  let registered := register ∅ RSA_PSS RSAPublicKey (create_verifier_for_pss E) in
  let registered := register registered DSA DSAPublicKey (create_verifier_for_dsa E) in
  foldl (fun registered curve =>
           if elliptic_curve_supported E curve
           then register registered ("ECC_" +:+ upper (curve_name curve))
                  EllipticCurvePublicKey (create_verifier_for_ecc E)
           else registered)
    registered ECC_CURVES.

(** ** Building the verifier *)

Definition should_create_verifier (image_properties : option ImageProperties) : bool :=
  match image_properties with
  | None => false
  | Some image_properties =>
      contains CERT_UUID image_properties &&
      contains HASH_METHOD image_properties &&
      contains SIGNATURE image_properties &&
      contains KEY_TYPE image_properties
  end.

Definition get_signature (E : Env) (signature_data : string) : M bytes :=
  tell (Ev_get_signature signature_data) ;;
  match decode_as_bytes E signature_data with
  | Some signature => ret signature
  | None => raise (SignatureVerificationError InvalidSignatureEncoding)
  end.

Definition get_hash_method (hash_method_name : string) : M HashAlgorithm :=
  tell (Ev_get_hash_method hash_method_name) ;;
  if negb (contains hash_method_name HASH_METHODS)
  then raise (SignatureVerificationError (InvalidHashMethod hash_method_name))
  else subscript HASH_METHODS hash_method_name.

Definition verify_certificate (E : Env) (certificate : Certificate) : M unit :=
  tell (Ev_verify_certificate certificate) ;;
  let now := utcnow E in
  if now <? not_valid_before certificate
  then raise (SignatureVerificationError
                (CertificateNotYetValid (not_valid_before certificate)))
  else if now >? not_valid_after certificate
  then raise (SignatureVerificationError
                (CertificateExpired (not_valid_after certificate)))
  else ret tt.

Definition get_certificate (E : Env) (context : Context)
    (signature_certificate_uuid : string) : M Certificate :=
  tell (Ev_keymgr_get context signature_certificate_uuid) ;;
  match keymgr_get E context signature_certificate_uuid with
  | None => raise (SignatureVerificationError
                     (UnableToRetrieveCertificate signature_certificate_uuid))
  | Some cert =>
      if negb (bool_decide (format cert ∈ CERTIFICATE_FORMATS))
      then raise (SignatureVerificationError
                    (InvalidCertificateFormat (format cert)))
      else
        certificate <-
          (if bool_decide (format cert = X_509) then
             let cert_data := get_encoded cert in
             tell (Ev_load_der_x509_certificate cert_data) ;;
             match load_der_x509_certificate E cert_data with
             | Some certificate => ret certificate
             | None => raise ValueError
             end
           else raise (SignatureVerificationError
                         (CertificateFormatNotSupported (format cert)))) ;;
        verify_certificate E certificate ;;
        ret certificate
  end.

Definition get_public_key (E : Env) (context : Context)
    (signature_certificate_uuid : string)
    (signature_key_type : SignatureKeyType) : M PublicKey :=
  certificate <- get_certificate E context signature_certificate_uuid ;;
  tell (Ev_public_key certificate) ;;
  let public_key := public_key certificate in
  if negb (isinstance public_key (public_key_type signature_key_type))
  then raise (SignatureVerificationError
                (KeyTypeMismatch (name signature_key_type)))
  else ret public_key.

(** [try: ... except crypto_exception.UnsupportedAlgorithm: handler] *)
Definition except_UnsupportedAlgorithm {A : Type} (body handler : M A) : M A :=
  match body with
  | (t, Raises UnsupportedAlgorithm) => let (t', r) := handler in (t ++ t', r)
  | _ => body
  end.

(** [get_verifier], reading the registry [registered].  Past the first
    check the properties are a dictionary ([None] has no subscript). *)
Definition get_verifier (E : Env) (registered : gmap string SignatureKeyType)
    (context : Context) (image_properties : option ImageProperties)
  : M Verifier :=
  tell Ev_should_create_verifier ;;
  if negb (should_create_verifier image_properties)
  then raise (SignatureVerificationError MissingSignatureMetadata)
  else
    match image_properties with
    | None => raise TypeError
    | Some image_properties =>
        signature_data <- subscript image_properties SIGNATURE ;;
        signature <- get_signature E signature_data ;;
        hash_method_name <- subscript image_properties HASH_METHOD ;;
        hash_method <- get_hash_method hash_method_name ;;
        key_type_name <- subscript image_properties KEY_TYPE ;;
        signature_key_type <- lookup registered key_type_name ;;
        cert_uuid <- subscript image_properties CERT_UUID ;;
        public_key <- get_public_key E context cert_uuid signature_key_type ;;
        verifier <-
          except_UnsupportedAlgorithm
            (tell (Ev_create_verifier (name signature_key_type)
                     (public_key_type signature_key_type) public_key) ;;
             create_verifier signature_key_type signature hash_method
               public_key image_properties)
            (raise (SignatureVerificationError AlgorithmUnsupported)) ;;
        match verifier with
        | Some verifier => ret verifier
        | None => raise (SignatureVerificationError VerifierCreationError)
        end
    end.

(** ** Notions the statements use *)

(** The rank of a call in the sequence of [get_verifier]: the check of the
    required properties, the decoding of the signature, the hash method, the
    key type, the retrieval, decoding and validation of the certificate, the
    derivation of its public key (followed by the check of its type) and the
    construction of the verifier. *)
Definition step (ev : Event) : nat :=
  match ev with
  | Ev_should_create_verifier => 0
  | Ev_get_signature _ => 1
  | Ev_get_hash_method _ => 2
  | Ev_lookup _ => 3
  | Ev_keymgr_get _ _ => 4
  | Ev_load_der_x509_certificate _ => 5
  | Ev_verify_certificate _ => 6
  | Ev_public_key _ => 7
  | Ev_create_verifier _ _ _ => 8
  end%nat.

(** A registry that holds constructors of this module only, as every
    registry does that [register] was called on with them. *)
Definition registered_by_module (E : Env)
    (registered : gmap string SignatureKeyType) : Prop :=
  ∀ n d, registered !! n = Some d →
    create_verifier d = create_verifier_for_pss E ∨
    create_verifier d = create_verifier_for_ecc E ∨
    create_verifier d = create_verifier_for_dsa E.

(** The current instant lies in the validity window of a certificate, both
    bounds included. *)
Definition in_validity_window (E : Env) (certificate : Certificate) : Prop :=
  not_valid_before certificate <= utcnow E <= not_valid_after certificate.

(** The optional property [mask_gen_algorithm] lets the construction of an
    RSA-PSS verifier go on to the salt length: it is absent or names MGF1. *)
Definition mask_gen_accepted (image_properties : ImageProperties) : Prop :=
  image_properties !! MASK_GEN_ALG = None ∨
  image_properties !! MASK_GEN_ALG = Some "MGF1".

(** The step of [get_verifier] an error message comes from, as a rank of
    [step]. *)
Definition raised_at (msg : Message) : nat :=
  match msg with
  | MissingSignatureMetadata => 0
  | InvalidSignatureEncoding => 1
  | InvalidHashMethod _ => 2
  | InvalidKeyType _ => 3
  | UnableToRetrieveCertificate _ => 4
  | InvalidCertificateFormat _ => 4
  | CertificateFormatNotSupported _ => 4
  | CertificateNotYetValid _ => 6
  | CertificateExpired _ => 6
  | KeyTypeMismatch _ => 7
  | InvalidMaskGenAlgorithm _ => 8
  | InvalidPssSaltLength _ => 8
  | AlgorithmUnsupported => 8
  | VerifierCreationError => 8
  end%nat.

(** The properties fail one of the checks that come before the certificate:
    a required property is missing, the signature is not base64, the hash
    method is unknown, or the key type is not registered. *)
Definition fails_before_certificate (E : Env)
    (registered : gmap string SignatureKeyType)
    (image_properties : option ImageProperties) : Prop :=
  should_create_verifier image_properties = false
  ∨ ∃ props, image_properties = Some props ∧
      ((∃ s, props !! SIGNATURE = Some s ∧ decode_as_bytes E s = None)
       ∨ (∃ h, props !! HASH_METHOD = Some h ∧ HASH_METHODS !! h = None)
       ∨ (∃ k, props !! KEY_TYPE = Some k ∧ registered !! k = None)).

(** The call [a] comes before the call [b] in the trace [t]. *)
Definition precedes (a b : Event) (t : list Event) : Prop :=
  ∃ t1 t2 t3, t = t1 ++ a :: t2 ++ b :: t3.

(** ** The runs of [get_verifier], case by case

    [get_verifier_run E registered context image_properties t o]: the call
    makes the calls [t] and ends in [o].  One rule per way through the
    function, each with the conditions on the properties, the registry and
    the collaborators that select it. *)

(** What [get_verifier] makes of the outcome of a constructor: the
    verification context it returned, an error when it returned a false
    object, the error of an unsupported algorithm in place of the backend's
    exception, and any other exception as it is. *)
Inductive constructor_result : Outcome (option Verifier) → Outcome Verifier → Prop :=
| result_verifier v :
    constructor_result (Returns (Some v)) (Returns v)
| result_false_object :
    constructor_result (Returns None)
      (Raises (SignatureVerificationError VerifierCreationError))
| result_unsupported :
    constructor_result (Raises UnsupportedAlgorithm)
      (Raises (SignatureVerificationError AlgorithmUnsupported))
| result_other_exception e :
    e ≠ UnsupportedAlgorithm →
    constructor_result (Raises e) (Raises e).

(** The calls every run makes once the four required properties are there
    and the signature, the hash method and the key type are accepted. *)
Definition calls_before_certificate (s h k : string) : list Event :=
  [Ev_should_create_verifier; Ev_get_signature s; Ev_get_hash_method h;
   Ev_lookup k].

(** The calls of a run that obtained the decoded certificate [c] of the
    managed object [cert] and went on to validate it. *)
Definition calls_to_certificate (context : Context) (s h k u : string)
    (cert : ManagedObject) (c : Certificate) : list Event :=
  calls_before_certificate s h k ++
  [Ev_keymgr_get context u; Ev_load_der_x509_certificate (get_encoded cert);
   Ev_verify_certificate c].

(** The calls of a run that reached the constructor of the key type [d]. *)
Definition calls_to_constructor (context : Context) (s h k u : string)
    (cert : ManagedObject) (c : Certificate) (d : SignatureKeyType)
  : list Event :=
  calls_to_certificate context s h k u cert c ++
  [Ev_public_key c;
   Ev_create_verifier (name d) (public_key_type d) (public_key c)].

Inductive get_verifier_run (E : Env) (registered : gmap string SignatureKeyType)
    (context : Context)
  : option ImageProperties → list Event → Outcome Verifier → Prop :=
| run_missing_metadata image_properties :
    should_create_verifier image_properties = false →
    get_verifier_run E registered context image_properties
      [Ev_should_create_verifier]
      (Raises (SignatureVerificationError MissingSignatureMetadata))
| run_invalid_signature props s :
    props !! SIGNATURE = Some s →
    decode_as_bytes E s = None →
    get_verifier_run E registered context (Some props)
      [Ev_should_create_verifier; Ev_get_signature s]
      (Raises (SignatureVerificationError InvalidSignatureEncoding))
| run_invalid_hash_method props s h signature :
    props !! SIGNATURE = Some s →
    props !! HASH_METHOD = Some h →
    decode_as_bytes E s = Some signature →
    HASH_METHODS !! h = None →
    get_verifier_run E registered context (Some props)
      [Ev_should_create_verifier; Ev_get_signature s; Ev_get_hash_method h]
      (Raises (SignatureVerificationError (InvalidHashMethod h)))
| run_invalid_key_type props s h k signature hash_method :
    props !! SIGNATURE = Some s →
    props !! HASH_METHOD = Some h →
    props !! KEY_TYPE = Some k →
    decode_as_bytes E s = Some signature →
    HASH_METHODS !! h = Some hash_method →
    registered !! k = None →
    get_verifier_run E registered context (Some props)
      (calls_before_certificate s h k)
      (Raises (SignatureVerificationError (InvalidKeyType k)))
| run_certificate_not_retrieved props s h k u signature hash_method d :
    props !! SIGNATURE = Some s →
    props !! HASH_METHOD = Some h →
    props !! KEY_TYPE = Some k →
    props !! CERT_UUID = Some u →
    decode_as_bytes E s = Some signature →
    HASH_METHODS !! h = Some hash_method →
    registered !! k = Some d →
    keymgr_get E context u = None →
    get_verifier_run E registered context (Some props)
      (calls_before_certificate s h k ++ [Ev_keymgr_get context u])
      (Raises (SignatureVerificationError (UnableToRetrieveCertificate u)))
| run_certificate_format_invalid props s h k u signature hash_method d cert :
    props !! SIGNATURE = Some s →
    props !! HASH_METHOD = Some h →
    props !! KEY_TYPE = Some k →
    props !! CERT_UUID = Some u →
    decode_as_bytes E s = Some signature →
    HASH_METHODS !! h = Some hash_method →
    registered !! k = Some d →
    keymgr_get E context u = Some cert →
    format cert ≠ X_509 →
    get_verifier_run E registered context (Some props)
      (calls_before_certificate s h k ++ [Ev_keymgr_get context u])
      (Raises (SignatureVerificationError
                 (InvalidCertificateFormat (format cert))))
| run_certificate_not_decoded props s h k u signature hash_method d cert :
    props !! SIGNATURE = Some s →
    props !! HASH_METHOD = Some h →
    props !! KEY_TYPE = Some k →
    props !! CERT_UUID = Some u →
    decode_as_bytes E s = Some signature →
    HASH_METHODS !! h = Some hash_method →
    registered !! k = Some d →
    keymgr_get E context u = Some cert →
    format cert = X_509 →
    load_der_x509_certificate E (get_encoded cert) = None →
    get_verifier_run E registered context (Some props)
      (calls_before_certificate s h k ++
       [Ev_keymgr_get context u;
        Ev_load_der_x509_certificate (get_encoded cert)])
      (Raises ValueError)
| run_certificate_not_yet_valid props s h k u signature hash_method d cert c :
    props !! SIGNATURE = Some s →
    props !! HASH_METHOD = Some h →
    props !! KEY_TYPE = Some k →
    props !! CERT_UUID = Some u →
    decode_as_bytes E s = Some signature →
    HASH_METHODS !! h = Some hash_method →
    registered !! k = Some d →
    keymgr_get E context u = Some cert →
    format cert = X_509 →
    load_der_x509_certificate E (get_encoded cert) = Some c →
    utcnow E < not_valid_before c →
    get_verifier_run E registered context (Some props)
      (calls_to_certificate context s h k u cert c)
      (Raises (SignatureVerificationError
                 (CertificateNotYetValid (not_valid_before c))))
| run_certificate_expired props s h k u signature hash_method d cert c :
    props !! SIGNATURE = Some s →
    props !! HASH_METHOD = Some h →
    props !! KEY_TYPE = Some k →
    props !! CERT_UUID = Some u →
    decode_as_bytes E s = Some signature →
    HASH_METHODS !! h = Some hash_method →
    registered !! k = Some d →
    keymgr_get E context u = Some cert →
    format cert = X_509 →
    load_der_x509_certificate E (get_encoded cert) = Some c →
    not_valid_before c <= utcnow E →
    utcnow E > not_valid_after c →
    get_verifier_run E registered context (Some props)
      (calls_to_certificate context s h k u cert c)
      (Raises (SignatureVerificationError
                 (CertificateExpired (not_valid_after c))))
| run_key_type_mismatch props s h k u signature hash_method d cert c :
    props !! SIGNATURE = Some s →
    props !! HASH_METHOD = Some h →
    props !! KEY_TYPE = Some k →
    props !! CERT_UUID = Some u →
    decode_as_bytes E s = Some signature →
    HASH_METHODS !! h = Some hash_method →
    registered !! k = Some d →
    keymgr_get E context u = Some cert →
    format cert = X_509 →
    load_der_x509_certificate E (get_encoded cert) = Some c →
    in_validity_window E c →
    isinstance (public_key c) (public_key_type d) = false →
    get_verifier_run E registered context (Some props)
      (calls_to_certificate context s h k u cert c ++ [Ev_public_key c])
      (Raises (SignatureVerificationError (KeyTypeMismatch (name d))))
| run_constructor props s h k u signature hash_method d cert c built result :
    props !! SIGNATURE = Some s →
    props !! HASH_METHOD = Some h →
    props !! KEY_TYPE = Some k →
    props !! CERT_UUID = Some u →
    decode_as_bytes E s = Some signature →
    HASH_METHODS !! h = Some hash_method →
    registered !! k = Some d →
    keymgr_get E context u = Some cert →
    format cert = X_509 →
    load_der_x509_certificate E (get_encoded cert) = Some c →
    in_validity_window E c →
    isinstance (public_key c) (public_key_type d) = true →
    create_verifier d signature hash_method (public_key c) props = ([], built) →
    (∀ msg, built = Raises (SignatureVerificationError msg) →
       (∃ a, msg = InvalidMaskGenAlgorithm a) ∨
       (∃ l, msg = InvalidPssSaltLength l)) →
    constructor_result built result →
    get_verifier_run E registered context (Some props)
      (calls_to_constructor context s h k u cert c d)
      result.

(** ** A concrete environment, for the examples *)

Module Sample.

Definition rsa_key : PublicKey :=
  {| key_class := RSAPublicKey; key_material := [Byte.x01] |}.

Definition dsa_key : PublicKey :=
  {| key_class := DSAPublicKey; key_material := [Byte.x02] |}.

Definition rsa_certificate : Certificate :=
  {| not_valid_before := 100; not_valid_after := 200; public_key := rsa_key |}.

Definition dsa_certificate : Certificate :=
  {| not_valid_before := 100; not_valid_after := 200; public_key := dsa_key |}.

(** A certificate whose window is inverted. *)
Definition inverted_certificate : Certificate :=
  {| not_valid_before := 10; not_valid_after := 5; public_key := rsa_key |}.

Definition signature : bytes := [Byte.xde; Byte.xad; Byte.xbe; Byte.xef].

(** The key manager knows the certificates [cert-1] (RSA) and [cert-2]
    (DSA); the clock reads 150; the backend supports two of the curves and
    rejects a negative salt length; [int] reads decimal literals. *)
Definition env : Env :=
  {| keymgr_get := fun _ uuid =>
       if bool_decide (uuid = "cert-1")
       then Some {| format := "X.509"; get_encoded := [Byte.x01] |}
       else if bool_decide (uuid = "cert-2")
       then Some {| format := "X.509"; get_encoded := [Byte.x02] |}
       else None;
     load_der_x509_certificate := fun data =>
       match data with
       | [Byte.x01] => Some rsa_certificate
       | [Byte.x02] => Some dsa_certificate
       | _ => None
       end;
     utcnow := 150;
     decode_as_bytes := fun s =>
       if bool_decide (s = "3q2+7w==") then Some signature else None;
     elliptic_curve_supported := fun curve =>
       match curve with
       | SECP521R1 | SECP384R1 => true
       | _ => false
       end;
     backend_verifier := fun key args =>
       match args with
       | PssArgs _ {| salt_length := Length n |} _ =>
           if n <? 0 then RejectsValue
           else Built {| verifier_key := key; verifier_args := args |}
       | _ => Built {| verifier_key := key; verifier_args := args |}
       end;
     int := py_int |}.

(** The same environment at another instant. *)
Definition env_at (now : datetime) : Env :=
  {| keymgr_get := keymgr_get env;
     load_der_x509_certificate := load_der_x509_certificate env;
     utcnow := now;
     decode_as_bytes := decode_as_bytes env;
     elliptic_curve_supported := elliptic_curve_supported env;
     backend_verifier := backend_verifier env;
     int := int env |}.

(** The descriptor the module registers for RSA-PSS. *)
Definition rsa_pss : SignatureKeyType :=
  {| name := RSA_PSS; public_key_type := RSAPublicKey;
     create_verifier := create_verifier_for_pss env |}.

Definition image_properties : ImageProperties :=
  list_to_map [("img_signature", "3q2+7w==");
               ("img_signature_hash_method", "SHA-256");
               ("img_signature_key_type", "RSA-PSS");
               ("img_signature_certificate_uuid", "cert-1")].

End Sample.

(** ** The deprecated path: [should_verify_signature] and [verify_signature] *)

Definition OLD_SIGNATURE : string := "signature".

Definition OLD_HASH_METHOD : string := "signature_hash_method".

Definition OLD_KEY_TYPE : string := "signature_key_type".

Definition OLD_CERT_UUID : string := "signature_certificate_uuid".

Definition should_verify_signature (image_properties : option ImageProperties) : bool :=
  match image_properties with
  | None => false
  | Some image_properties =>
      contains OLD_CERT_UUID image_properties &&
      contains OLD_HASH_METHOD image_properties &&
      contains OLD_SIGNATURE image_properties &&
      contains OLD_KEY_TYPE image_properties
  end.

(** [encodeutils.to_utf8] on a text: its bytes (a string of this development
    is the sequence of the bytes of its UTF-8 encoding). *)
Definition to_utf8 (text : string) : bytes := list_byte_of_string text.

(** The errors of [verify_signature]: the exceptions it shares with
    [get_verifier], and its two messages of its own. *)
Inductive LegacyError :=
| Shared (e : exn)
| SignatureVerificationFailed
    (* SignatureVerificationError: Signature verification failed. *)
| VerificationError
    (* SignatureVerificationError: Error occurred while verifying the
       signature *).

(** [verify_signature] returns [True] or raises. *)
Inductive LegacyOutcome :=
| ReturnsTrue
| LegacyRaises (e : LegacyError).

(** [verify_signature].  [verify v data] tells whether
    [v.update(data); v.verify()] returns; it raises [InvalidSignature]
    otherwise.  The trace holds the calls to the functions of [Event]; the
    check of the required properties leaves none. *)
Definition verify_signature (E : Env) (verify : Verifier → bytes → bool)
    (registered : gmap string SignatureKeyType) (context : Context)
    (checksum_hash : string) (image_properties : option ImageProperties)
  : list Event * LegacyOutcome :=
  if negb (should_verify_signature image_properties)
  then ([], LegacyRaises (Shared (SignatureVerificationError
                                    MissingSignatureMetadata)))
  else
    match image_properties with
    | None => ([], LegacyRaises (Shared TypeError))
    | Some image_properties =>
        let checksum_hash := to_utf8 checksum_hash in
        let built : M (option Verifier) :=
          signature_data <- subscript image_properties OLD_SIGNATURE ;;
          signature <- get_signature E signature_data ;;
          hash_method_name <- subscript image_properties OLD_HASH_METHOD ;;
          hash_method <- get_hash_method hash_method_name ;;
          key_type_name <- subscript image_properties OLD_KEY_TYPE ;;
          signature_key_type <- lookup registered key_type_name ;;
          cert_uuid <- subscript image_properties OLD_CERT_UUID ;;
          public_key <- get_public_key E context cert_uuid signature_key_type ;;
          except_UnsupportedAlgorithm
            (tell (Ev_create_verifier (name signature_key_type)
                     (public_key_type signature_key_type) public_key) ;;
             create_verifier signature_key_type signature hash_method
               public_key image_properties)
            (raise (SignatureVerificationError AlgorithmUnsupported))
        in
        match built with
        | (t, Returns (Some verifier)) =>
            if verify verifier checksum_hash
            then (t, ReturnsTrue)
            else (t, LegacyRaises SignatureVerificationFailed)
        | (t, Returns None) => (t, LegacyRaises VerificationError)
        | (t, Raises e) => (t, LegacyRaises (Shared e))
        end
    end.

(** What [verify_signature] makes of the outcome [get_verifier] has on the
    same values: it verifies the checksum with the verifier, and words the
    error of a false verifier in its own way. *)
Definition legacy_outcome (verify : Verifier → bytes → bool)
    (checksum_hash : string) (o : Outcome Verifier) : LegacyOutcome :=
  match o with
  | Returns v =>
      if verify v (to_utf8 checksum_hash) then ReturnsTrue
      else LegacyRaises SignatureVerificationFailed
  | Raises (SignatureVerificationError VerifierCreationError) =>
      LegacyRaises VerificationError
  | Raises e => LegacyRaises (Shared e)
  end.

(** ** Further notions the statements use *)

(** The signature and the hash method among the arguments of a call to the
    backend. *)
Definition args_signature (args : VerifierArgs) : bytes :=
  match args with
  | PssArgs signature _ _ => signature
  | EcdsaArgs signature _ => signature
  | DsaArgs signature _ => signature
  end.

Definition args_hash_method (args : VerifierArgs) : HashAlgorithm :=
  match args with
  | PssArgs _ _ hash_method => hash_method
  | EcdsaArgs _ hash_method => hash_method
  | DsaArgs _ hash_method => hash_method
  end.

(** Every descriptor of the registry is stored under its own name. *)
Definition stored_under_own_name (registered : gmap string SignatureKeyType) : Prop :=
  ∀ n d, registered !! n = Some d → name d = n.

(** The name under which the key type of a curve is registered. *)
Definition ecc_key_type_name (curve : Curve) : string :=
  "ECC_" +:+ upper (curve_name curve).

(** The loop of the module over the curves, from any registry. *)
Definition register_curves (E : Env) (registered : gmap string SignatureKeyType)
    (curves : list Curve) : gmap string SignatureKeyType :=
  foldl (fun registered curve =>
           if elliptic_curve_supported E curve
           then register registered ("ECC_" +:+ upper (curve_name curve))
                  EllipticCurvePublicKey (create_verifier_for_ecc E)
           else registered)
    registered curves.

(** A verification that accepts the checksum [abc] alone, for the examples. *)
Definition sample_verify (v : Verifier) (data : bytes) : bool :=
  match data with
  | [Byte.x61; Byte.x62; Byte.x63] => true
  | _ => false
  end.

(** The sample environment with a backend that refuses every construction. *)
Definition sample_refusing_env : Env :=
  {| keymgr_get := keymgr_get Sample.env;
     load_der_x509_certificate := load_der_x509_certificate Sample.env;
     utcnow := utcnow Sample.env;
     decode_as_bytes := decode_as_bytes Sample.env;
     elliptic_curve_supported := elliptic_curve_supported Sample.env;
     backend_verifier := fun _ _ => Unsupported;
     int := int Sample.env |}.

(** The sample properties under the names of the deprecated scheme. *)
Definition sample_old_image_properties : ImageProperties :=
  list_to_map [("signature", "3q2+7w==");
               ("signature_hash_method", "SHA-256");
               ("signature_key_type", "RSA-PSS");
               ("signature_certificate_uuid", "cert-1")].

(** ** Basic facts *)

Lemma contains_true {V : Type} (k : string) (d : gmap string V) :
  contains k d = true ↔ is_Some (d !! k).
Proof.
  unfold contains.
  destruct (d !! k); split; [by eexists | done | done | by intros [? [=]]].
Qed.

(** ** The registry *)

Lemma registered_by_module_empty (E : Env) : registered_by_module E ∅.
Proof. intros n d Hd. by rewrite lookup_empty in Hd. Qed.

Lemma registered_by_module_register (E : Env)
    (registered : gmap string SignatureKeyType) (n : string)
    (t : PublicKeyClass)
    (c : bytes -> HashAlgorithm -> PublicKey -> ImageProperties -> M (option Verifier)) :
  registered_by_module E registered →
  c = create_verifier_for_pss E ∨ c = create_verifier_for_ecc E ∨
  c = create_verifier_for_dsa E →
  registered_by_module E (register registered n t c).
Proof.
  intros Hreg Hc n' d. unfold register.
  destruct (decide (n = n')) as [->|Hne].
  - rewrite lookup_insert_eq. intros [= <-]. exact Hc.
  - rewrite lookup_insert_ne by done. apply Hreg.
Qed.

(** The registry of the imported module holds its own constructors only,
    whatever curves the backend supports. *)
Lemma registered_by_module_REGISTERED_TYPES (E : Env) :
  registered_by_module E (_REGISTERED_TYPES E).
Proof.
  unfold _REGISTERED_TYPES.
  generalize ECC_CURVES.
  assert (Hstart : registered_by_module E
            (register (register ∅ RSA_PSS RSAPublicKey (create_verifier_for_pss E))
               DSA DSAPublicKey (create_verifier_for_dsa E))).
  { apply registered_by_module_register; [|by auto].
    apply registered_by_module_register; [|by auto].
    apply registered_by_module_empty. }
  revert Hstart.
  generalize (register (register ∅ RSA_PSS RSAPublicKey (create_verifier_for_pss E))
                DSA DSAPublicKey (create_verifier_for_dsa E)).
  intros reg Hreg curves. revert reg Hreg.
  induction curves as [|curve curves IH]; intros reg Hreg; simpl; [done|].
  apply IH. destruct (elliptic_curve_supported E curve); [|done].
  apply registered_by_module_register; auto.
Qed.

(** C8. [SignatureKeyType.register] is last-write-wins: after two
    registrations under one name the registry maps that name to the
    descriptor of the second call (its name, expected key type and
    constructor), nothing of the first call is left (the registry is the one
    the second call alone would have made), and every other name maps to
    what it mapped to before. *)
Theorem register_last_write_wins
    (registered : gmap string SignatureKeyType) (n : string)
    (t1 t2 : PublicKeyClass)
    (c1 c2 : bytes -> HashAlgorithm -> PublicKey -> ImageProperties -> M (option Verifier)) :
  let twice := register (register registered n t1 c1) n t2 c2 in
  twice !! n = Some {| name := n; public_key_type := t2; create_verifier := c2 |}
  ∧ twice = register registered n t2 c2
  ∧ ∀ n', twice !! n' =
          if decide (n' = n)
          then Some {| name := n; public_key_type := t2; create_verifier := c2 |}
          else registered !! n'.
Proof.
  intros twice. unfold twice, register. split; [|split].
  - apply lookup_insert_eq.
  - apply insert_insert_eq.
  - intros n'. destruct (decide (n' = n)) as [->|Hne].
    + apply lookup_insert_eq.
    + rewrite !lookup_insert_ne by done. reflexivity.
Qed.

(** C7. [SignatureKeyType.lookup] raises the error of an invalid signature
    key type for every name that the table of registered types does not
    hold, and for every name it holds it returns the stored descriptor
    without raising; a descriptor that [register] stored comes back with the
    name, expected public-key type and constructor it was registered with. *)
Theorem lookup_registered_or_unknown
    (registered : gmap string SignatureKeyType) (n : string) :
  (registered !! n = None →
   lookup registered n =
     ([Ev_lookup n], Raises (SignatureVerificationError (InvalidKeyType n))))
  ∧ (∀ d, registered !! n = Some d →
          lookup registered n = ([Ev_lookup n], Returns d))
  ∧ (∀ t c, lookup (register registered n t c) n =
            ([Ev_lookup n],
             Returns {| name := n; public_key_type := t; create_verifier := c |})).
Proof.
  assert (Hsome : ∀ reg d, reg !! n = Some d →
            lookup reg n = ([Ev_lookup n], Returns d)).
  { intros reg d Hd. unfold lookup, contains, subscript. rewrite Hd. reflexivity. }
  split; [|split].
  - intros Hn. unfold lookup, contains. rewrite Hn. reflexivity.
  - apply Hsome.
  - intros t c. apply Hsome. unfold register. apply lookup_insert_eq.
Qed.

Lemma lookup_registered_or_unknown_witness :
  lookup (_REGISTERED_TYPES Sample.env) "RSA" =
    ([Ev_lookup "RSA"], Raises (SignatureVerificationError (InvalidKeyType "RSA")))
  ∧ lookup (_REGISTERED_TYPES Sample.env) "DSA" =
      ([Ev_lookup "DSA"],
       Returns {| name := "DSA"; public_key_type := DSAPublicKey;
                  create_verifier := create_verifier_for_dsa Sample.env |}).
Proof.
  split.
  - apply (proj1 (lookup_registered_or_unknown _ "RSA")). vm_compute. reflexivity.
  - apply (proj1 (proj2 (lookup_registered_or_unknown _ "DSA"))).
    vm_compute. reflexivity.
Defined.

(** ** The runs of the module's functions *)

Ltac reduce :=
  cbn [bind ret raise tell fst snd app negb andb orb trace outcome] in *.

(** A constructor of the module makes no call of its own; it fails with a
    [SignatureVerificationError] only for one of the two optional RSA-PSS
    properties. *)
Lemma module_constructor_run (E : Env)
    (c : bytes -> HashAlgorithm -> PublicKey -> ImageProperties -> M (option Verifier))
    (signature : bytes) (hash_method : HashAlgorithm) (key : PublicKey)
    (props : ImageProperties) :
  c = create_verifier_for_pss E ∨ c = create_verifier_for_ecc E ∨
  c = create_verifier_for_dsa E →
  ∃ built, c signature hash_method key props = ([], built) ∧
    ∀ msg, built = Raises (SignatureVerificationError msg) →
      (∃ a, msg = InvalidMaskGenAlgorithm a) ∨ (∃ l, msg = InvalidPssSaltLength l).
Proof.
  assert (Hverifier : ∀ args, ∃ built, verifier E key args = ([], built) ∧
            ∀ msg, built ≠ Raises (SignatureVerificationError msg)).
  { intros args. unfold verifier.
    destruct (backend_verifier E key args); eexists; (split; [reflexivity|done]). }
  intros [->|[->| ->]].
  - unfold create_verifier_for_pss, subscript, contains.
    destruct (props !! MASK_GEN_ALG) as [a|]; reduce;
      [destruct (MASK_GEN_ALGORITHMS !! a); reduce|].
    2: { eexists; split; [reflexivity|]. intros msg [= <-]. left. by eexists. }
    all: destruct (props !! PSS_SALT_LENGTH) as [l|]; reduce;
      [destruct (int E l); reduce|].
    all: try (eexists; split; [reflexivity|]; intros msg [= <-]; right; by eexists).
    all: match goal with
         | |- context [verifier _ _ ?args] =>
             destruct (Hverifier args) as (built & -> & Hbuilt)
         end; reduce; exists built; split; [reflexivity|];
         intros msg ->; by destruct (Hbuilt msg).
  - unfold create_verifier_for_ecc.
    destruct (Hverifier (EcdsaArgs signature hash_method)) as (built & -> & Hbuilt).
    exists built; split; [reflexivity|]. intros msg ->. by destruct (Hbuilt msg).
  - unfold create_verifier_for_dsa.
    destruct (Hverifier (DsaArgs signature hash_method)) as (built & -> & Hbuilt).
    exists built; split; [reflexivity|]. intros msg ->. by destruct (Hbuilt msg).
Qed.

Lemma get_verifier_run_pair (E : Env) (registered : gmap string SignatureKeyType)
    (context : Context) (image_properties : option ImageProperties) :
  registered_by_module E registered →
  ∃ t o, get_verifier E registered context image_properties = (t, o) ∧
         get_verifier_run E registered context image_properties t o.
Proof.
  intros Hreg. unfold get_verifier.
  destruct (should_create_verifier image_properties) eqn:Hfields; reduce.
  2: { eexists _, _; split; [reflexivity|]. by apply run_missing_metadata. }
  destruct image_properties as [props|]; [|discriminate].
  unfold should_create_verifier in Hfields.
  rewrite !andb_true_iff, !contains_true in Hfields.
  destruct Hfields as [[[[u Hu] [h Hh]] [s Hs]] [k Hk]].
  unfold get_signature, get_hash_method, lookup, get_public_key,
    get_certificate, verify_certificate, subscript, contains.
  rewrite Hs, Hh, Hk, Hu. reduce.
  destruct (decode_as_bytes E s) as [signature|] eqn:Hdecode; reduce.
  2: { eexists _, _; split; [reflexivity|]. eapply run_invalid_signature; eauto. }
  destruct (HASH_METHODS !! h) as [hash_method|] eqn:Hhash; reduce.
  2: { eexists _, _; split; [reflexivity|]. eapply run_invalid_hash_method; eauto. }
  destruct (registered !! k) as [d|] eqn:Hd; reduce.
  2: { eexists _, _; split; [reflexivity|]. eapply run_invalid_key_type; eauto. }
  destruct (keymgr_get E context u) as [cert|] eqn:Hcert; reduce.
  2: { eexists _, _; split; [reflexivity|].
       eapply run_certificate_not_retrieved; eauto. }
  unfold CERTIFICATE_FORMATS. 
  destruct (decide (format cert = X_509)) as [Hformat|Hformat].
  2: { rewrite bool_decide_eq_false_2 by set_solver. reduce.
       eexists _, _; split; [reflexivity|].
       eapply run_certificate_format_invalid; eauto. }
  rewrite bool_decide_eq_true_2 by set_solver.
  rewrite bool_decide_eq_true_2 by done. reduce.
  destruct (load_der_x509_certificate E (get_encoded cert)) as [c|] eqn:Hload;
    reduce.
  2: { eexists _, _; split; [reflexivity|].
       eapply run_certificate_not_decoded; eauto. }
  destruct (Z.ltb_spec (utcnow E) (not_valid_before c)) as [Hbefore|Hbefore];
    reduce.
  { eexists _, _; split; [reflexivity|].
    eapply run_certificate_not_yet_valid; eauto. }
  destruct (Z.gtb_spec (utcnow E) (not_valid_after c)) as [Hafter|Hafter];
    reduce.
  { eexists _, _; split; [reflexivity|].
    eapply run_certificate_expired; eauto; lia. }
  assert (Hwindow : in_validity_window E c) by (unfold in_validity_window; lia).
  destruct (isinstance (public_key c) (public_key_type d)) eqn:Hinstance; reduce.
  2: { eexists _, _; split; [reflexivity|].
       eapply run_key_type_mismatch; eauto. }
  destruct (module_constructor_run E (create_verifier d) signature hash_method
              (public_key c) props (Hreg k d Hd)) as (built & Hbuilt & Hmsg).
  rewrite Hbuilt. unfold except_UnsupportedAlgorithm.
  assert (Hrun : ∀ result, constructor_result built result →
            get_verifier_run E registered context (Some props)
              (calls_to_constructor context s h k u cert c d) result).
  { intros result Hresult. eapply run_constructor; eauto. }
  destruct built as [[v|]|e]; reduce.
  - eexists _, _; split; [reflexivity|]. apply Hrun. constructor.
  - eexists _, _; split; [reflexivity|]. apply Hrun. constructor.
  - destruct e; reduce; (eexists _, _; split; [reflexivity|]); apply Hrun;
      by constructor.
Qed.

(** Every run of [get_verifier] follows one of the rules. *)
Lemma get_verifier_runs (E : Env) (registered : gmap string SignatureKeyType)
    (context : Context) (image_properties : option ImageProperties) :
  registered_by_module E registered →
  get_verifier_run E registered context image_properties
    (trace (get_verifier E registered context image_properties))
    (outcome (get_verifier E registered context image_properties)).
Proof.
  intros Hreg.
  destruct (get_verifier_run_pair E registered context image_properties Hreg)
    as (t & o & -> & Hrun).
  exact Hrun.
Qed.

(** ** The validity window of a certificate *)

Lemma verify_certificate_run (E : Env) (c : Certificate) :
  verify_certificate E c =
    ([Ev_verify_certificate c],
     if utcnow E <? not_valid_before c
     then Raises (SignatureVerificationError
                    (CertificateNotYetValid (not_valid_before c)))
     else if utcnow E >? not_valid_after c
     then Raises (SignatureVerificationError
                    (CertificateExpired (not_valid_after c)))
     else Returns tt).
Proof.
  unfold verify_certificate.
  destruct (utcnow E <? not_valid_before c);
    [|destruct (utcnow E >? not_valid_after c)]; reflexivity.
Qed.

(** C3, as the code has it.  [verify_certificate] compares with the lower
    bound first: it fails because the certificate is not yet valid exactly
    when now < not_valid_before; it fails because the certificate has expired
    exactly when now >= not_valid_before and now > not_valid_after; and it
    succeeds exactly when not_valid_before <= now <= not_valid_after, so an
    instant equal to a bound of such a window is valid. *)
Theorem verify_certificate_window (E : Env) (c : Certificate) :
  ((∃ bound, outcome (verify_certificate E c) =
       Raises (SignatureVerificationError (CertificateNotYetValid bound)))
     ↔ utcnow E < not_valid_before c)
  ∧ ((∃ bound, outcome (verify_certificate E c) =
        Raises (SignatureVerificationError (CertificateExpired bound)))
     ↔ not_valid_before c <= utcnow E ∧ utcnow E > not_valid_after c)
  ∧ (outcome (verify_certificate E c) = Returns tt
     ↔ not_valid_before c <= utcnow E <= not_valid_after c).
Proof.
  rewrite verify_certificate_run. cbn [outcome snd].
  destruct (Z.ltb_spec (utcnow E) (not_valid_before c)) as [Hlow|Hlow];
    [|destruct (Z.gtb_spec (utcnow E) (not_valid_after c)) as [Hhigh|Hhigh]].
  all: split; [|split]; split.
  all: first [ solve [intros [bound [=]]; lia]
             | solve [intros [bound [=]]]
             | solve [intros [=]]
             | solve [intros; lia]
             | solve [intros _; eexists; reflexivity]
             | solve [intros _; reflexivity] ].
Qed.

(** C3 as the specification words it (expired exactly when now >
    not_valid_after, valid at an instant equal to either bound) does not hold
    for a certificate whose window is inverted (not valid before 10, not
    valid after 5): at the instant 7, which is later than not_valid_after,
    the error is the one of a certificate that is not yet valid, not the one
    of an expired certificate; and at the instant 10, which equals
    not_valid_before, the check does not succeed. *)
Lemma verify_certificate_expired_iff_counterexample :
  ¬ (∀ (E : Env) (c : Certificate),
       (∃ bound, outcome (verify_certificate E c) =
          Raises (SignatureVerificationError (CertificateExpired bound)))
       ↔ utcnow E > not_valid_after c)
  ∧ ¬ (∀ (E : Env) (c : Certificate),
         utcnow E = not_valid_before c →
         outcome (verify_certificate E c) = Returns tt).
Proof.
  split.
  - intros Hall.
    destruct (Hall (Sample.env_at 7) Sample.inverted_certificate) as [_ Hexpired].
    destruct Hexpired as [bound Hbound]; [reflexivity|].
    vm_compute in Hbound. discriminate.
  - intros Hall.
    specialize (Hall (Sample.env_at 10) Sample.inverted_certificate eq_refl).
    vm_compute in Hall. discriminate.
Qed.

(** ** The required properties *)

Lemma should_create_verifier_true (image_properties : option ImageProperties) :
  should_create_verifier image_properties = true ↔
  ∃ props, image_properties = Some props ∧
    ∀ k, k ∈ [SIGNATURE; HASH_METHOD; KEY_TYPE; CERT_UUID] → is_Some (props !! k).
Proof.
  destruct image_properties as [props|]; cbn [should_create_verifier].
  - rewrite !andb_true_iff, !contains_true. split.
    + intros [[[Hu Hh] Hs] Hk]. exists props. split; [done|].
      intros k Hin. repeat (apply elem_of_cons in Hin as [->|Hin]); try done.
      by apply elem_of_nil in Hin.
    + intros (props' & [= <-] & Hall).
      repeat split; apply Hall; set_solver.
  - split; [done|]. by intros (props & [=] & _).
Qed.

Lemma should_create_verifier_false (props : ImageProperties) :
  should_create_verifier (Some props) = false ↔
  ∃ k, k ∈ [SIGNATURE; HASH_METHOD; KEY_TYPE; CERT_UUID] ∧ props !! k = None.
Proof.
  split.
  - intros Hfalse.
    destruct (props !! SIGNATURE) eqn:Hs; [|exists SIGNATURE; set_solver].
    destruct (props !! HASH_METHOD) eqn:Hh; [|exists HASH_METHOD; set_solver].
    destruct (props !! KEY_TYPE) eqn:Hk; [|exists KEY_TYPE; set_solver].
    destruct (props !! CERT_UUID) eqn:Hu; [|exists CERT_UUID; set_solver].
    exfalso. apply not_true_iff_false in Hfalse. apply Hfalse.
    apply should_create_verifier_true. exists props. split; [done|].
    intros k Hin. repeat (apply elem_of_cons in Hin as [->|Hin]); eauto.
    by apply elem_of_nil in Hin.
  - intros (k & Hin & Hk). apply not_true_iff_false.
    intros (props' & [= <-] & Hall)%should_create_verifier_true.
    destruct (Hall k Hin) as [v Hv]. congruence.
Qed.

Lemma get_verifier_not_created (E : Env)
    (registered : gmap string SignatureKeyType) (context : Context)
    (image_properties : option ImageProperties) :
  should_create_verifier image_properties = false →
  get_verifier E registered context image_properties =
    ([Ev_should_create_verifier],
     Raises (SignatureVerificationError MissingSignatureMetadata)).
Proof. intros Hfalse. unfold get_verifier. rewrite Hfalse. reflexivity. Qed.

(** C4. When one of the four required properties (whichever it is) is not
    in the mapping, [get_verifier] raises the error of missing signature
    metadata, and nothing else has run; when the four of them are there,
    that error is not raised, for every registry of this module's
    constructors. *)
Theorem get_verifier_missing_metadata (E : Env)
    (registered : gmap string SignatureKeyType) (context : Context)
    (props : ImageProperties) :
  ((∃ k, k ∈ [SIGNATURE; HASH_METHOD; KEY_TYPE; CERT_UUID] ∧ props !! k = None) →
   get_verifier E registered context (Some props) =
     ([Ev_should_create_verifier],
      Raises (SignatureVerificationError MissingSignatureMetadata)))
  ∧ (registered_by_module E registered →
     (∀ k, k ∈ [SIGNATURE; HASH_METHOD; KEY_TYPE; CERT_UUID] →
           is_Some (props !! k)) →
     outcome (get_verifier E registered context (Some props)) ≠
       Raises (SignatureVerificationError MissingSignatureMetadata)).
Proof.
  split.
  - intros Hmissing. apply get_verifier_not_created.
    by apply should_create_verifier_false.
  - intros Hreg Hall Hraised.
    assert (Hfields : should_create_verifier (Some props) = true).
    { apply should_create_verifier_true. eauto. }
    pose proof (get_verifier_runs E registered context (Some props) Hreg) as Hrun.
    rewrite Hraised in Hrun. inversion Hrun; subst; [congruence|].
    match goal with
    | Hresult : constructor_result _ _ |- _ => inversion Hresult; subst
    end.
    match goal with
    | Hmsg : ∀ msg, _ = _ → _ ∨ _ |- _ =>
        destruct (Hmsg _ eq_refl) as [[a [=]]|[l [=]]]
    end.
Qed.

Lemma get_verifier_missing_metadata_witness :
  get_verifier Sample.env (_REGISTERED_TYPES Sample.env) "ctx"
    (Some (delete KEY_TYPE Sample.image_properties)) =
    ([Ev_should_create_verifier],
     Raises (SignatureVerificationError MissingSignatureMetadata))
  ∧ outcome (get_verifier Sample.env (_REGISTERED_TYPES Sample.env) "ctx"
               (Some Sample.image_properties)) ≠
      Raises (SignatureVerificationError MissingSignatureMetadata).
Proof.
  split.
  - apply (proj1 (get_verifier_missing_metadata Sample.env
                    (_REGISTERED_TYPES Sample.env) "ctx"
                    (delete KEY_TYPE Sample.image_properties))).
    exists KEY_TYPE. split; [set_solver|]. vm_compute. reflexivity.
  - apply (proj2 (get_verifier_missing_metadata Sample.env
                    (_REGISTERED_TYPES Sample.env) "ctx" Sample.image_properties)).
    + apply registered_by_module_REGISTERED_TYPES.
    + intros k Hin.
      repeat (apply elem_of_cons in Hin as [->|Hin]);
        try (vm_compute; eexists; reflexivity).
      by apply elem_of_nil in Hin.
Defined.

(** C9. [should_create_verifier] is false for [None], so that
    [get_verifier] on [None] raises the error of missing signature metadata
    without going further: the very outcome it has for a mapping in which a
    required property is missing. *)
Theorem get_verifier_None (E : Env)
    (registered : gmap string SignatureKeyType) (context : Context) :
  should_create_verifier None = false
  ∧ get_verifier E registered context None =
      ([Ev_should_create_verifier],
       Raises (SignatureVerificationError MissingSignatureMetadata))
  ∧ ∀ props k, k ∈ [SIGNATURE; HASH_METHOD; KEY_TYPE; CERT_UUID] →
      props !! k = None →
      get_verifier E registered context (Some props) =
        get_verifier E registered context None.
Proof.
  split; [reflexivity|]. split; [reflexivity|].
  intros props k Hin Hk.
  rewrite (get_verifier_not_created E registered context (Some props)).
  - reflexivity.
  - apply should_create_verifier_false. eauto.
Qed.

Lemma get_verifier_None_witness :
  get_verifier Sample.env (_REGISTERED_TYPES Sample.env) "ctx"
    (Some (delete SIGNATURE Sample.image_properties)) =
  get_verifier Sample.env (_REGISTERED_TYPES Sample.env) "ctx" None.
Proof.
  apply (proj2 (proj2 (get_verifier_None Sample.env
                         (_REGISTERED_TYPES Sample.env) "ctx"))
           (delete SIGNATURE Sample.image_properties) SIGNATURE).
  - set_solver.
  - vm_compute. reflexivity.
Defined.

(** ** The RSA-PSS constructor *)

Lemma MASK_GEN_ALGORITHMS_lookup (a : string) :
  MASK_GEN_ALGORITHMS !! a = if decide (a = "MGF1") then Some MGF1 else None.
Proof.
  unfold MASK_GEN_ALGORITHMS. cbn [list_to_map foldr uncurry fst snd].
  destruct (decide (a = "MGF1")) as [->|Hne].
  - apply lookup_insert_eq.
  - rewrite lookup_insert_ne by done. apply lookup_empty.
Qed.

(** The mask generation function is rejected. *)
Lemma create_verifier_for_pss_mask_gen_rejected (E : Env) (signature : bytes)
    (hash_method : HashAlgorithm) (key : PublicKey) (props : ImageProperties)
    (a : string) :
  props !! MASK_GEN_ALG = Some a →
  MASK_GEN_ALGORITHMS !! a = None →
  create_verifier_for_pss E signature hash_method key props =
    raise (SignatureVerificationError (InvalidMaskGenAlgorithm a)).
Proof.
  intros Ha Hnone. unfold create_verifier_for_pss, subscript, contains.
  rewrite Ha. reduce. rewrite Hnone. reflexivity.
Qed.

(** The mask generation function is accepted: what the salt length makes of
    the call. *)
Lemma create_verifier_for_pss_mask_gen_accepted (E : Env) (signature : bytes)
    (hash_method : HashAlgorithm) (key : PublicKey) (props : ImageProperties) :
  mask_gen_accepted props →
  create_verifier_for_pss E signature hash_method key props =
    match props !! PSS_SALT_LENGTH with
    | None =>
        verifier E key
          (PssArgs signature
             {| mgf := MGF1 hash_method; salt_length := MAX_LENGTH |}
             hash_method)
    | Some l =>
        match int E l with
        | Some n =>
            verifier E key
              (PssArgs signature
                 {| mgf := MGF1 hash_method; salt_length := Length n |}
                 hash_method)
        | None => raise (SignatureVerificationError (InvalidPssSaltLength l))
        end
    end.
Proof.
  intros Hmgf. unfold create_verifier_for_pss, subscript, contains.
  assert (Hcall : ∀ args : VerifierArgs,
            (let (t', r) := verifier E key args in (t', r)) = verifier E key args).
  { intros args. by destruct (verifier E key args). }
  destruct Hmgf as [-> | ->]; reduce.
  - destruct (props !! PSS_SALT_LENGTH) as [l|]; reduce;
      [destruct (int E l); reduce|]; rewrite ?Hcall; reflexivity.
  - rewrite MASK_GEN_ALGORITHMS_lookup.
    destruct (decide ("MGF1" = "MGF1")) as [_|Hne]; [|done]. reduce.
    destruct (props !! PSS_SALT_LENGTH) as [l|]; reduce;
      [destruct (int E l); reduce|]; rewrite ?Hcall; reflexivity.
Qed.

Lemma verifier_not_SignatureVerificationError (E : Env) (key : PublicKey)
    (args : VerifierArgs) (msg : Message) :
  outcome (verifier E key args) ≠ Raises (SignatureVerificationError msg).
Proof. unfold verifier. by destruct (backend_verifier E key args). Qed.

Lemma int_as_documented_sample : int_as_documented Sample.env.
Proof. intros s _. reflexivity. Qed.

(** C5. [create_verifier_for_pss] on the optional RSA-PSS properties: with
    no mask_gen_algorithm the mask generation function is MGF1 over the
    declared hash method, and with no pss_salt_length the salt length is the
    maximum one; a mask_gen_algorithm that the table does not hold raises
    the error of an invalid mask_gen_algorithm; a pss_salt_length on which
    [int] fails raises the error of an invalid pss_salt_length, and one that
    [int] parses to n gives the salt length n.  With an [int] that reads
    plain strings as the interpreter does, the string 64 gives the salt
    length 64 and the string abc raises the error. *)
Theorem create_verifier_for_pss_parameters (E : Env) (signature : bytes)
    (hash_method : HashAlgorithm) (key : PublicKey) (props : ImageProperties) :
  (mask_gen_accepted props → props !! PSS_SALT_LENGTH = None →
   create_verifier_for_pss E signature hash_method key props =
     verifier E key
       (PssArgs signature
          {| mgf := MGF1 hash_method; salt_length := MAX_LENGTH |} hash_method))
  ∧ (∀ a, props !! MASK_GEN_ALG = Some a → MASK_GEN_ALGORITHMS !! a = None →
      create_verifier_for_pss E signature hash_method key props =
        raise (SignatureVerificationError (InvalidMaskGenAlgorithm a)))
  ∧ (∀ l, mask_gen_accepted props → props !! PSS_SALT_LENGTH = Some l →
      int E l = None →
      create_verifier_for_pss E signature hash_method key props =
        raise (SignatureVerificationError (InvalidPssSaltLength l)))
  ∧ (∀ l n, mask_gen_accepted props → props !! PSS_SALT_LENGTH = Some l →
      int E l = Some n →
      create_verifier_for_pss E signature hash_method key props =
        verifier E key
          (PssArgs signature
             {| mgf := MGF1 hash_method; salt_length := Length n |} hash_method))
  ∧ (int_as_documented E → mask_gen_accepted props →
     props !! PSS_SALT_LENGTH = Some "64" →
     create_verifier_for_pss E signature hash_method key props =
       verifier E key
         (PssArgs signature
            {| mgf := MGF1 hash_method; salt_length := Length 64 |} hash_method))
  ∧ (int_as_documented E → mask_gen_accepted props →
     props !! PSS_SALT_LENGTH = Some "abc" →
     create_verifier_for_pss E signature hash_method key props =
       raise (SignatureVerificationError (InvalidPssSaltLength "abc"))).
Proof.
  split_and!.
  - intros Hmgf Hsalt.
    rewrite create_verifier_for_pss_mask_gen_accepted by done.
    by rewrite Hsalt.
  - intros a. apply create_verifier_for_pss_mask_gen_rejected.
  - intros l Hmgf Hsalt Hint.
    rewrite create_verifier_for_pss_mask_gen_accepted by done.
    by rewrite Hsalt, Hint.
  - intros l n Hmgf Hsalt Hint.
    rewrite create_verifier_for_pss_mask_gen_accepted by done.
    by rewrite Hsalt, Hint.
  - intros Hint Hmgf Hsalt.
    rewrite create_verifier_for_pss_mask_gen_accepted by done.
    rewrite Hsalt, (Hint "64") by (by vm_compute). reflexivity.
  - intros Hint Hmgf Hsalt.
    rewrite create_verifier_for_pss_mask_gen_accepted by done.
    rewrite Hsalt, (Hint "abc") by (by vm_compute). reflexivity.
Qed.

Lemma create_verifier_for_pss_parameters_witness :
  create_verifier_for_pss Sample.env Sample.signature SHA256 Sample.rsa_key
    Sample.image_properties =
    verifier Sample.env Sample.rsa_key
      (PssArgs Sample.signature
         {| mgf := MGF1 SHA256; salt_length := MAX_LENGTH |} SHA256)
  ∧ create_verifier_for_pss Sample.env Sample.signature SHA256 Sample.rsa_key
      (<[MASK_GEN_ALG := "MGF2"]> Sample.image_properties) =
      raise (SignatureVerificationError (InvalidMaskGenAlgorithm "MGF2"))
  ∧ create_verifier_for_pss Sample.env Sample.signature SHA256 Sample.rsa_key
      (<[PSS_SALT_LENGTH := "6 4"]> Sample.image_properties) =
      raise (SignatureVerificationError (InvalidPssSaltLength "6 4"))
  ∧ create_verifier_for_pss Sample.env Sample.signature SHA256 Sample.rsa_key
      (<[PSS_SALT_LENGTH := "0064"]> Sample.image_properties) =
      verifier Sample.env Sample.rsa_key
        (PssArgs Sample.signature
           {| mgf := MGF1 SHA256; salt_length := Length 64 |} SHA256)
  ∧ create_verifier_for_pss Sample.env Sample.signature SHA256 Sample.rsa_key
      (<[PSS_SALT_LENGTH := "64"]> Sample.image_properties) =
      verifier Sample.env Sample.rsa_key
        (PssArgs Sample.signature
           {| mgf := MGF1 SHA256; salt_length := Length 64 |} SHA256)
  ∧ create_verifier_for_pss Sample.env Sample.signature SHA256 Sample.rsa_key
      (<[PSS_SALT_LENGTH := "abc"]> Sample.image_properties) =
      raise (SignatureVerificationError (InvalidPssSaltLength "abc")).
Proof.
  split_and!.
  - apply (proj1 (create_verifier_for_pss_parameters Sample.env Sample.signature
                    SHA256 Sample.rsa_key Sample.image_properties)).
    + left. vm_compute. reflexivity.
    + vm_compute. reflexivity.
  - apply (proj1 (proj2 (create_verifier_for_pss_parameters Sample.env
                           Sample.signature SHA256 Sample.rsa_key
                           (<[MASK_GEN_ALG := "MGF2"]> Sample.image_properties)))
             "MGF2").
    + vm_compute. reflexivity.
    + vm_compute. reflexivity.
  - apply (proj1 (proj2 (proj2 (create_verifier_for_pss_parameters Sample.env
                           Sample.signature SHA256 Sample.rsa_key
                           (<[PSS_SALT_LENGTH := "6 4"]> Sample.image_properties))))
             "6 4").
    + left. vm_compute. reflexivity.
    + vm_compute. reflexivity.
    + vm_compute. reflexivity.
  - apply (proj1 (proj2 (proj2 (proj2 (create_verifier_for_pss_parameters
                           Sample.env Sample.signature SHA256 Sample.rsa_key
                           (<[PSS_SALT_LENGTH := "0064"]> Sample.image_properties)))))
             "0064" 64).
    + left. vm_compute. reflexivity.
    + vm_compute. reflexivity.
    + vm_compute. reflexivity.
  - apply (proj1 (proj2 (proj2 (proj2 (proj2 (create_verifier_for_pss_parameters
                           Sample.env Sample.signature SHA256 Sample.rsa_key
                           (<[PSS_SALT_LENGTH := "64"]> Sample.image_properties))))))).
    + apply int_as_documented_sample.
    + left. vm_compute. reflexivity.
    + vm_compute. reflexivity.
  - apply (proj2 (proj2 (proj2 (proj2 (proj2 (create_verifier_for_pss_parameters
                           Sample.env Sample.signature SHA256 Sample.rsa_key
                           (<[PSS_SALT_LENGTH := "abc"]> Sample.image_properties))))))).
    + apply int_as_documented_sample.
    + left. vm_compute. reflexivity.
    + vm_compute. reflexivity.
Defined.

(** C10. [create_verifier_for_pss] raises the error of an invalid
    pss_salt_length exactly when it comes to call [int] on the
    pss_salt_length string (the property is there, past an absent or
    accepted mask_gen_algorithm) and [int] fails on it: the one condition is
    the failure of [int], whatever [int] accepts.  Every string that [int]
    parses is accepted: the number it denotes, negative or not, is the salt
    length of the padding handed to the backend, with no check of its
    range.  With an [int] that reads plain strings as the interpreter does,
    this holds of a negative number, of a number with an explicit sign and
    of a number with whitespace around it. *)
Theorem create_verifier_for_pss_salt_length_int (E : Env) (signature : bytes)
    (hash_method : HashAlgorithm) (key : PublicKey) (props : ImageProperties) :
  (∀ l, outcome (create_verifier_for_pss E signature hash_method key props) =
          Raises (SignatureVerificationError (InvalidPssSaltLength l))
        ↔ mask_gen_accepted props ∧ props !! PSS_SALT_LENGTH = Some l ∧
          int E l = None)
  ∧ (∀ l n, mask_gen_accepted props → props !! PSS_SALT_LENGTH = Some l →
      int E l = Some n →
      create_verifier_for_pss E signature hash_method key props =
        verifier E key
          (PssArgs signature
             {| mgf := MGF1 hash_method; salt_length := Length n |} hash_method))
  ∧ (int_as_documented E → mask_gen_accepted props →
     ∀ l n, (l, n) ∈ [("-1", -1); ("+64", 64); (" 64 ", 64)] →
     props !! PSS_SALT_LENGTH = Some l →
     create_verifier_for_pss E signature hash_method key props =
       verifier E key
         (PssArgs signature
            {| mgf := MGF1 hash_method; salt_length := Length n |} hash_method)).
Proof.
  assert (Hparsed : ∀ l n, mask_gen_accepted props →
            props !! PSS_SALT_LENGTH = Some l → int E l = Some n →
            create_verifier_for_pss E signature hash_method key props =
              verifier E key
                (PssArgs signature
                   {| mgf := MGF1 hash_method; salt_length := Length n |}
                   hash_method)).
  { intros l n Hmgf Hsalt Hint.
    rewrite create_verifier_for_pss_mask_gen_accepted by done.
    by rewrite Hsalt, Hint. }
  split; [|split; [exact Hparsed|]].
  - intros l. split.
    + intros Hraised.
      destruct (props !! MASK_GEN_ALG) as [a|] eqn:Ha.
      * destruct (MASK_GEN_ALGORITHMS !! a) as [make|] eqn:Hmake.
        2: { rewrite (create_verifier_for_pss_mask_gen_rejected
                        E signature hash_method key props a Ha Hmake) in Hraised.
             discriminate. }
        rewrite MASK_GEN_ALGORITHMS_lookup in Hmake.
        destruct (decide (a = "MGF1")) as [->|]; [|discriminate].
        assert (Hmgf : mask_gen_accepted props) by (by right).
        rewrite create_verifier_for_pss_mask_gen_accepted in Hraised by done.
        destruct (props !! PSS_SALT_LENGTH) as [l'|];
          [destruct (int E l') eqn:Hint|].
        -- by apply verifier_not_SignatureVerificationError in Hraised.
        -- injection Hraised as ->. done.
        -- by apply verifier_not_SignatureVerificationError in Hraised.
      * assert (Hmgf : mask_gen_accepted props) by (by left).
        rewrite create_verifier_for_pss_mask_gen_accepted in Hraised by done.
        destruct (props !! PSS_SALT_LENGTH) as [l'|];
          [destruct (int E l') eqn:Hint|].
        -- by apply verifier_not_SignatureVerificationError in Hraised.
        -- injection Hraised as ->. done.
        -- by apply verifier_not_SignatureVerificationError in Hraised.
    + intros (Hmgf & Hsalt & Hint).
      rewrite create_verifier_for_pss_mask_gen_accepted by done.
      by rewrite Hsalt, Hint.
  - intros Hint Hmgf l n Hin Hsalt.
    apply (Hparsed l n Hmgf Hsalt).
    repeat (apply elem_of_cons in Hin as [[= -> ->]|Hin]);
      [rewrite Hint by (by vm_compute); by vm_compute ..|].
    by apply elem_of_nil in Hin.
Qed.

Lemma create_verifier_for_pss_salt_length_int_witness :
  create_verifier_for_pss Sample.env Sample.signature SHA256 Sample.rsa_key
    (<[PSS_SALT_LENGTH := "-1"]> Sample.image_properties) =
    verifier Sample.env Sample.rsa_key
      (PssArgs Sample.signature
         {| mgf := MGF1 SHA256; salt_length := Length (-1) |} SHA256)
  ∧ create_verifier_for_pss Sample.env Sample.signature SHA256 Sample.rsa_key
      (<[PSS_SALT_LENGTH := " 64 "]> Sample.image_properties) =
      verifier Sample.env Sample.rsa_key
        (PssArgs Sample.signature
           {| mgf := MGF1 SHA256; salt_length := Length 64 |} SHA256).
Proof.
  split.
  - apply (proj1 (proj2 (create_verifier_for_pss_salt_length_int Sample.env
                           Sample.signature SHA256 Sample.rsa_key
                           (<[PSS_SALT_LENGTH := "-1"]> Sample.image_properties)))
             "-1" (-1)).
    + left. vm_compute. reflexivity.
    + vm_compute. reflexivity.
    + vm_compute. reflexivity.
  - assert (Hmgf : mask_gen_accepted
                     (<[PSS_SALT_LENGTH := " 64 "]> Sample.image_properties)).
    { left. vm_compute. reflexivity. }
    apply (proj2 (proj2 (create_verifier_for_pss_salt_length_int Sample.env
                           Sample.signature SHA256 Sample.rsa_key
                           (<[PSS_SALT_LENGTH := " 64 "]> Sample.image_properties)))
             int_as_documented_sample Hmgf " 64 " 64).
    + do 2 apply list_elem_of_further. apply list_elem_of_here.
    + vm_compute. reflexivity.
Defined.

(** ** The certificate and its public key *)

Lemma verify_certificate_succeeds (E : Env) (c : Certificate) :
  in_validity_window E c ↔ outcome (verify_certificate E c) = Returns tt.
Proof.
  rewrite verify_certificate_run. cbn [outcome snd]. unfold in_validity_window.
  destruct (Z.ltb_spec (utcnow E) (not_valid_before c));
    [|destruct (Z.gtb_spec (utcnow E) (not_valid_after c))];
    split; first [done | lia].
Qed.

(** A certificate that [get_certificate] returns was decoded from an X.509
    object of the key manager and went through [verify_certificate]. *)
Lemma get_certificate_returns (E : Env) (context : Context) (u : string)
    (c : Certificate) :
  outcome (get_certificate E context u) = Returns c →
  ∃ cert, keymgr_get E context u = Some cert ∧ format cert = X_509 ∧
    load_der_x509_certificate E (get_encoded cert) = Some c ∧
    in_validity_window E c ∧
    trace (get_certificate E context u) =
      [Ev_keymgr_get context u;
       Ev_load_der_x509_certificate (get_encoded cert);
       Ev_verify_certificate c].
Proof.
  unfold get_certificate, verify_certificate, CERTIFICATE_FORMATS.
  destruct (keymgr_get E context u) as [cert|]; reduce; [|done].
  destruct (decide (format cert = X_509)) as [Hformat|Hformat].
  2: { rewrite bool_decide_eq_false_2 by set_solver. reduce. done. }
  rewrite bool_decide_eq_true_2 by set_solver.
  rewrite bool_decide_eq_true_2 by done. reduce.
  destruct (load_der_x509_certificate E (get_encoded cert)) as [c'|] eqn:Hload;
    reduce; [|done].
  destruct (Z.ltb_spec (utcnow E) (not_valid_before c')); reduce; [done|].
  destruct (Z.gtb_spec (utcnow E) (not_valid_after c')); reduce; [done|].
  intros [= <-]. exists cert. unfold in_validity_window.
  repeat split; first [done | lia].
Qed.

Lemma get_public_key_run (E : Env) (context : Context) (u : string)
    (d : SignatureKeyType) (c : Certificate) :
  outcome (get_certificate E context u) = Returns c →
  get_public_key E context u d =
    (trace (get_certificate E context u) ++ [Ev_public_key c],
     if isinstance (public_key c) (public_key_type d)
     then Returns (public_key c)
     else Raises (SignatureVerificationError (KeyTypeMismatch (name d)))).
Proof.
  unfold get_public_key.
  destruct (get_certificate E context u) as [t [c'|e]]; reduce; [|done].
  intros [= ->].
  by destruct (isinstance (public_key c) (public_key_type d)).
Qed.

Ltac unfold_calls :=
  unfold calls_to_constructor, calls_to_certificate, calls_before_certificate
    in *;
  cbn [app] in *.

(** The cases of a membership in an explicit trace. *)
Ltac elem_cases H :=
  repeat (apply elem_of_cons in H as [H|H]; [try discriminate H|]);
  try (by apply elem_of_nil in H).

(** The runs of the call of [get_verifier] at hand, with its trace and
    outcome named [t] and [o]. *)
Ltac runs_of Hreg t o Hrun :=
  let Heq := fresh "Heq" in
  lazymatch goal with
  | _ : context [get_verifier ?E ?registered ?ctx ?image_properties] |- _ =>
      destruct (get_verifier_run_pair E registered ctx image_properties Hreg)
        as (t & o & Heq & Hrun)
  | |- context [get_verifier ?E ?registered ?ctx ?image_properties] =>
      destruct (get_verifier_run_pair E registered ctx image_properties Hreg)
        as (t & o & Heq & Hrun)
  end;
  rewrite Heq in *; cbn [trace outcome fst snd] in *; clear Heq.

(** C1. The validity of a certificate is checked before its public key is
    derived and used: a certificate that [get_certificate] returns has gone
    through [verify_certificate], which succeeded on it, and the current
    instant lies in its validity window; in every run of [get_verifier]
    over a registry of this module's constructors the derivation of the
    public key of a certificate comes after [verify_certificate] on that
    certificate, and a key that reaches a constructor is the public key of
    such a certificate. *)
Theorem certificate_verified_before_key_use (E : Env)
    (registered : gmap string SignatureKeyType) (context : Context)
    (image_properties : option ImageProperties) :
  registered_by_module E registered →
  (∀ u c, outcome (get_certificate E context u) = Returns c →
     Ev_verify_certificate c ∈ trace (get_certificate E context u) ∧
     outcome (verify_certificate E c) = Returns tt ∧
     in_validity_window E c)
  ∧ (∀ c, Ev_public_key c ∈
            trace (get_verifier E registered context image_properties) →
       precedes (Ev_verify_certificate c) (Ev_public_key c)
         (trace (get_verifier E registered context image_properties)) ∧
       outcome (verify_certificate E c) = Returns tt ∧
       in_validity_window E c)
  ∧ (∀ n t key, Ev_create_verifier n t key ∈
                  trace (get_verifier E registered context image_properties) →
       ∃ c, key = public_key c ∧
         precedes (Ev_verify_certificate c) (Ev_create_verifier n t key)
           (trace (get_verifier E registered context image_properties)) ∧
         outcome (verify_certificate E c) = Returns tt ∧
         in_validity_window E c).
Proof.
  intros Hreg. split; [|split].
  - intros u c (cert & _ & _ & _ & Hwindow & ->)%get_certificate_returns.
    split; [set_solver|]. split; [|done].
    by apply verify_certificate_succeeds.
  - intros c Hin.
    runs_of Hreg t o Hrun.
    inversion Hrun; subst; unfold_calls; elem_cases Hin.
    all: injection Hin as ->.
    all: split; [|split; [by apply verify_certificate_succeeds|done]].
    all: eexists [_; _; _; _; _; _], [], _; reflexivity.
  - intros n t key Hin.
    runs_of Hreg tr o Hrun.
    inversion Hrun; subst; unfold_calls; elem_cases Hin.
    injection Hin as -> -> ->.
    eexists. split; [reflexivity|].
    split; [|split; [by apply verify_certificate_succeeds|done]].
    eexists [_; _; _; _; _; _], [_], _; reflexivity.
Qed.

Lemma certificate_verified_before_key_use_witness :
  precedes (Ev_verify_certificate Sample.rsa_certificate)
    (Ev_public_key Sample.rsa_certificate)
    (trace (get_verifier Sample.env (_REGISTERED_TYPES Sample.env) "ctx"
              (Some Sample.image_properties)))
  ∧ outcome (verify_certificate Sample.env Sample.rsa_certificate) = Returns tt
  ∧ in_validity_window Sample.env Sample.rsa_certificate.
Proof.
  apply (proj1 (proj2 (certificate_verified_before_key_use Sample.env
                         (_REGISTERED_TYPES Sample.env) "ctx"
                         (Some Sample.image_properties)
                         (registered_by_module_REGISTERED_TYPES Sample.env)))).
  vm_compute. set_solver.
Defined.

(** C2. A verifier is never constructed from a public key that is not an
    instance of the public-key type the key type expects: when the types
    differ, [get_public_key] raises the error of an invalid public key type
    and runs no constructor; in every run of [get_verifier] over a registry
    of this module's constructors a constructor is called only for the
    descriptor that the key-type property names and with a key that is an
    instance of the type this descriptor expects; and a run that ends in
    the error of an invalid public key type has called no constructor. *)
Theorem verifier_only_for_expected_key_type (E : Env)
    (registered : gmap string SignatureKeyType) (context : Context)
    (image_properties : option ImageProperties) :
  registered_by_module E registered →
  (∀ u d c, outcome (get_certificate E context u) = Returns c →
     isinstance (public_key c) (public_key_type d) = false →
     outcome (get_public_key E context u d) =
       Raises (SignatureVerificationError (KeyTypeMismatch (name d))) ∧
     ∀ n t key, Ev_create_verifier n t key ∉ trace (get_public_key E context u d))
  ∧ (∀ n t key, Ev_create_verifier n t key ∈
                  trace (get_verifier E registered context image_properties) →
       isinstance key t = true ∧
       ∃ props k d, image_properties = Some props ∧
         props !! KEY_TYPE = Some k ∧ registered !! k = Some d ∧
         n = name d ∧ t = public_key_type d)
  ∧ (∀ mismatched,
       outcome (get_verifier E registered context image_properties) =
         Raises (SignatureVerificationError (KeyTypeMismatch mismatched)) →
       ∀ n t key, Ev_create_verifier n t key ∉
                    trace (get_verifier E registered context image_properties)).
Proof.
  intros Hreg. split; [|split].
  - intros u d c Hc Hinstance.
    rewrite (get_public_key_run E context u d c Hc), Hinstance.
    split; [reflexivity|]. cbn [trace fst].
    apply get_certificate_returns in Hc as (cert & _ & _ & _ & _ & ->).
    intros n t key Hin. cbn [app] in Hin. elem_cases Hin.
  - intros n t key Hin.
    runs_of Hreg tr o Hrun.
    inversion Hrun; subst; unfold_calls; elem_cases Hin.
    injection Hin as -> -> ->. split; [done|]. eauto 10.
  - intros mismatched Hraised n t key Hin.
    runs_of Hreg tr o Hrun.
    inversion Hrun; subst; unfold_calls; elem_cases Hin.
    match goal with
    | Hresult : constructor_result _ _ |- _ => inversion Hresult; subst
    end.
    match goal with
    | Hmsg : ∀ msg, _ = _ → _ ∨ _ |- _ =>
        destruct (Hmsg _ eq_refl) as [[a [=]]|[l [=]]]
    end.
Qed.

Lemma verifier_only_for_expected_key_type_witness :
  outcome (get_public_key Sample.env "ctx" "cert-2" Sample.rsa_pss) =
    Raises (SignatureVerificationError (KeyTypeMismatch (name Sample.rsa_pss)))
  ∧ ∀ n t key, Ev_create_verifier n t key ∉
      trace (get_public_key Sample.env "ctx" "cert-2" Sample.rsa_pss).
Proof.
  apply (proj1 (verifier_only_for_expected_key_type Sample.env
                  (_REGISTERED_TYPES Sample.env) "ctx"
                  (Some Sample.image_properties)
                  (registered_by_module_REGISTERED_TYPES Sample.env))
           "cert-2" Sample.rsa_pss Sample.dsa_certificate).
  - vm_compute. reflexivity.
  - vm_compute. reflexivity.
Defined.

(** ** The order of the steps *)

(** C6. In every run of [get_verifier] over a registry of this module's
    constructors the calls come in the one order of [step], each once and
    none skipped: required properties, signature, hash method, key type,
    certificate (retrieved, decoded, validated), public key and its type,
    constructor.  A run that ends in a [SignatureVerificationError] has
    stopped at the step the error comes from, and a run that returns a
    verifier has gone through all of them.  When a required property is
    missing, the signature is not base64, the hash method is unknown or the
    key type is not registered, no call of the certificate steps is made:
    the key manager is not contacted. *)
Theorem get_verifier_steps_in_order (E : Env)
    (registered : gmap string SignatureKeyType) (context : Context)
    (image_properties : option ImageProperties) :
  registered_by_module E registered →
  (∃ n, (n ≤ 9)%nat ∧
     step <$> trace (get_verifier E registered context image_properties) =
       seq 0 n)
  ∧ (∀ msg,
       outcome (get_verifier E registered context image_properties) =
         Raises (SignatureVerificationError msg) →
       step <$> trace (get_verifier E registered context image_properties) =
         seq 0 (S (raised_at msg)))
  ∧ (∀ v,
       outcome (get_verifier E registered context image_properties) = Returns v →
       step <$> trace (get_verifier E registered context image_properties) =
         seq 0 9)
  ∧ (fails_before_certificate E registered image_properties →
     (∀ ev, ev ∈ trace (get_verifier E registered context image_properties) →
            (step ev < 4)%nat) ∧
     ∀ c u, Ev_keymgr_get c u ∉
              trace (get_verifier E registered context image_properties)).
Proof.
  intros Hreg.
  assert (Hearly : fails_before_certificate E registered image_properties →
            ∀ ev, ev ∈ trace (get_verifier E registered context image_properties) →
                  (step ev < 4)%nat).
  { intros Hfails ev Hin.
    runs_of Hreg t o Hrun.
    inversion Hrun; subst; unfold_calls.
    1-4: elem_cases Hin; subst ev; cbn [step]; lia.
    all: exfalso; destruct Hfails as [Hfields|(props' & [= <-] & Hfails)].
    all: try (apply should_create_verifier_false in Hfields
                as (k' & Hk' & Hnone);
              repeat (apply elem_of_cons in Hk' as [->|Hk']); try congruence;
              by apply elem_of_nil in Hk').
    all: destruct Hfails as [(s' & Hs' & Hd')|[(h' & Hh' & Hd')|(k' & Hk' & Hd')]];
      congruence. }
  split; [|split; [|split]].
  - runs_of Hreg t o Hrun.
    exists (length t). inversion Hrun; subst; unfold_calls;
      (split; [cbn [length]; lia | reflexivity]).
  - intros msg Hraised.
    runs_of Hreg t o Hrun.
    inversion Hrun; simplify_eq; unfold_calls; try reflexivity.
    match goal with
    | Hresult : constructor_result _ _ |- _ =>
        inversion Hresult; simplify_eq
    end; try reflexivity.
    match goal with
    | Hmsg : ∀ msg, _ = _ → _ ∨ _ |- _ =>
        destruct (Hmsg _ eq_refl) as [[a ->]|[l ->]]
    end; reflexivity.
  - intros v Hreturned.
    runs_of Hreg t o Hrun.
    inversion Hrun; simplify_eq; unfold_calls. reflexivity.
  - intros Hfails. split; [by apply Hearly|].
    intros c u Hin. specialize (Hearly Hfails _ Hin). cbn [step] in Hearly. lia.
Qed.

Lemma get_verifier_steps_in_order_witness :
  (∀ ev, ev ∈ trace (get_verifier Sample.env (_REGISTERED_TYPES Sample.env) "ctx"
                       (Some (<[SIGNATURE := "not-valid-base64!!"]>
                                Sample.image_properties))) →
         (step ev < 4)%nat)
  ∧ ∀ c u, Ev_keymgr_get c u ∉
      trace (get_verifier Sample.env (_REGISTERED_TYPES Sample.env) "ctx"
               (Some (<[SIGNATURE := "not-valid-base64!!"]>
                        Sample.image_properties))).
Proof.
  apply (proj2 (proj2 (proj2 (get_verifier_steps_in_order Sample.env
                                (_REGISTERED_TYPES Sample.env) "ctx"
                                (Some (<[SIGNATURE := "not-valid-base64!!"]>
                                         Sample.image_properties))
                                (registered_by_module_REGISTERED_TYPES
                                   Sample.env))))).
  right. eexists. split; [reflexivity|]. left.
  exists "not-valid-base64!!". split; vm_compute; reflexivity.
Defined.

(** ** The scenarios of the sample environment *)

(** A complete set of properties for an RSA-PSS signature and a certificate
    within its window: the verifier is built with the default padding. *)
Example get_verifier_sample :
  outcome (get_verifier Sample.env (_REGISTERED_TYPES Sample.env) "ctx"
             (Some Sample.image_properties)) =
    Returns {| verifier_key := Sample.rsa_key;
               verifier_args :=
                 PssArgs Sample.signature
                   {| mgf := MGF1 SHA256; salt_length := MAX_LENGTH |} SHA256 |}.
Proof. vm_compute. reflexivity. Qed.

(** A signature that is not base64 stops the run at its second step. *)
Example get_verifier_sample_invalid_signature :
  get_verifier Sample.env (_REGISTERED_TYPES Sample.env) "ctx"
    (Some (<[SIGNATURE := "not-valid-base64!!"]> Sample.image_properties)) =
    ([Ev_should_create_verifier; Ev_get_signature "not-valid-base64!!"],
     Raises (SignatureVerificationError InvalidSignatureEncoding)).
Proof. vm_compute. reflexivity. Qed.

(** One instant past the window, the certificate has expired. *)
Example get_verifier_sample_expired :
  outcome (get_verifier (Sample.env_at 201) (_REGISTERED_TYPES Sample.env) "ctx"
             (Some Sample.image_properties)) =
    Raises (SignatureVerificationError (CertificateExpired 200)).
Proof. vm_compute. reflexivity. Qed.

(** A negative salt length reaches the backend, which rejects it there. *)
Example get_verifier_sample_negative_salt_length :
  outcome (get_verifier Sample.env (_REGISTERED_TYPES Sample.env) "ctx"
             (Some (<[PSS_SALT_LENGTH := "-1"]> Sample.image_properties))) =
    Raises ValueError.
Proof. vm_compute. reflexivity. Qed.

(** The key types of the sample backend. *)
Example REGISTERED_TYPES_sample :
  dom (_REGISTERED_TYPES Sample.env) =
    {[ "RSA-PSS"; "DSA"; "ECC_SECP521R1"; "ECC_SECP384R1" ]}.
Proof.
  apply set_eq. intros n. rewrite elem_of_dom.
  unfold _REGISTERED_TYPES, register. cbn [foldl ECC_CURVES].
  cbn [Sample.env elliptic_curve_supported curve_name].
  change ("ECC_" +:+ upper "secp521r1") with "ECC_SECP521R1".
  change ("ECC_" +:+ upper "secp384r1") with "ECC_SECP384R1".
  rewrite !lookup_insert_is_Some, lookup_empty.
  unfold RSA_PSS, DSA. rewrite !elem_of_union, !elem_of_singleton.
  split.
  - intros [->|[_ [->|[_ [->|[_ [->|[_ Hnone]]]]]]]]; auto.
    by destruct Hnone.
  - intros [[[->| ->]| ->]| ->].
    + right. split; [done|]. right. split; [done|]. right. split; [done|]. by left.
    + right. split; [done|]. right. split; [done|]. by left.
    + right. split; [done|]. by left.
    + by left.
Qed.

(** ** The registry of the imported module *)

Lemma ecc_key_type_name_inj (c c' : Curve) :
  ecc_key_type_name c = ecc_key_type_name c' → c = c'.
Proof. destruct c, c'; vm_compute; first [reflexivity | discriminate]. Qed.

Lemma ecc_key_type_name_not_static (c : Curve) :
  ecc_key_type_name c ≠ RSA_PSS ∧ ecc_key_type_name c ≠ DSA.
Proof. destruct c; split; vm_compute; discriminate. Qed.

Lemma register_curves_other (E : Env) (curves : list Curve)
    (registered : gmap string SignatureKeyType) (n : string) :
  (∀ c, c ∈ curves → elliptic_curve_supported E c = true →
        ecc_key_type_name c ≠ n) →
  register_curves E registered curves !! n = registered !! n.
Proof.
  revert registered.
  induction curves as [|c curves IH]; intros registered Hother; [done|].
  unfold register_curves in *. cbn [foldl]. rewrite IH.
  - destruct (elliptic_curve_supported E c) eqn:Hc; [|done].
    unfold register. apply lookup_insert_ne.
    apply (Hother c); [set_solver|done].
  - intros c' Hin. apply Hother. set_solver.
Qed.

Lemma register_curves_kept (E : Env) (curves : list Curve)
    (registered : gmap string SignatureKeyType) (c : Curve) :
  registered !! ecc_key_type_name c =
    Some {| name := ecc_key_type_name c;
            public_key_type := EllipticCurvePublicKey;
            create_verifier := create_verifier_for_ecc E |} →
  register_curves E registered curves !! ecc_key_type_name c =
    Some {| name := ecc_key_type_name c;
            public_key_type := EllipticCurvePublicKey;
            create_verifier := create_verifier_for_ecc E |}.
Proof.
  revert registered.
  induction curves as [|c' curves IH]; intros registered Hc; [done|].
  unfold register_curves in *. cbn [foldl]. apply IH.
  destruct (elliptic_curve_supported E c'); [|done].
  unfold register.
  destruct (decide (ecc_key_type_name c' = ecc_key_type_name c)) as [Heq|Hne].
  - unfold ecc_key_type_name in Heq. rewrite Heq. apply lookup_insert_eq.
  - rewrite lookup_insert_ne; done.
Qed.

Lemma register_curves_supported (E : Env) (curves : list Curve)
    (registered : gmap string SignatureKeyType) (c : Curve) :
  c ∈ curves → elliptic_curve_supported E c = true →
  register_curves E registered curves !! ecc_key_type_name c =
    Some {| name := ecc_key_type_name c;
            public_key_type := EllipticCurvePublicKey;
            create_verifier := create_verifier_for_ecc E |}.
Proof.
  revert registered.
  induction curves as [|c' curves IH]; intros registered Hin Hc.
  - by apply elem_of_nil in Hin.
  - apply elem_of_cons in Hin as [->|Hin].
    + change (register_curves E registered (c' :: curves))
        with (register_curves E
                (if elliptic_curve_supported E c'
                 then register registered (ecc_key_type_name c')
                        EllipticCurvePublicKey (create_verifier_for_ecc E)
                 else registered) curves).
      rewrite Hc. apply register_curves_kept.
      unfold register. apply lookup_insert_eq.
    + change (register_curves E registered (c' :: curves))
        with (register_curves E
                (if elliptic_curve_supported E c'
                 then register registered (ecc_key_type_name c')
                        EllipticCurvePublicKey (create_verifier_for_ecc E)
                 else registered) curves).
      by apply IH.
Qed.

Lemma register_curves_origin (E : Env) (curves : list Curve)
    (registered : gmap string SignatureKeyType) (n : string)
    (d : SignatureKeyType) :
  register_curves E registered curves !! n = Some d →
  registered !! n = Some d ∨
  ∃ c, c ∈ curves ∧ elliptic_curve_supported E c = true ∧
       n = ecc_key_type_name c.
Proof.
  revert registered.
  induction curves as [|c curves IH]; intros registered Hd; [by left|].
  change (register_curves E registered (c :: curves))
    with (register_curves E
            (if elliptic_curve_supported E c
             then register registered (ecc_key_type_name c)
                    EllipticCurvePublicKey (create_verifier_for_ecc E)
             else registered) curves) in Hd.
  apply IH in Hd as [Hd|(c' & Hin & Hc' & ->)].
  - destruct (elliptic_curve_supported E c) eqn:Hc; [|by left].
    unfold register in Hd.
    destruct (decide (ecc_key_type_name c = n)) as [<-|Hne].
    + right. exists c. split; [set_solver|done].
    + rewrite lookup_insert_ne in Hd by done. by left.
  - right. exists c'. split; [set_solver|done].
Qed.

Lemma REGISTERED_TYPES_register_curves (E : Env) :
  _REGISTERED_TYPES E =
    register_curves E
      (register (register ∅ RSA_PSS RSAPublicKey (create_verifier_for_pss E))
         DSA DSAPublicKey (create_verifier_for_dsa E))
      ECC_CURVES.
Proof. reflexivity. Qed.

Lemma ECC_CURVES_all (c : Curve) : c ∈ ECC_CURVES.
Proof. destruct c; unfold ECC_CURVES; set_solver. Qed.

(** X1. Whatever curves the backend supports, the imported module has
    registered RSA-PSS for RSA public keys with the RSA-PSS constructor and
    DSA for DSA public keys with the DSA constructor: no key type of a curve
    takes one of these two names. *)
Theorem REGISTERED_TYPES_rsa_pss_and_dsa (E : Env) :
  _REGISTERED_TYPES E !! RSA_PSS =
    Some {| name := RSA_PSS; public_key_type := RSAPublicKey;
            create_verifier := create_verifier_for_pss E |}
  ∧ _REGISTERED_TYPES E !! DSA =
      Some {| name := DSA; public_key_type := DSAPublicKey;
              create_verifier := create_verifier_for_dsa E |}.
Proof.
  rewrite REGISTERED_TYPES_register_curves. split.
  - rewrite register_curves_other.
    + unfold register. rewrite lookup_insert_ne by done. apply lookup_insert_eq.
    + intros c _ _. apply ecc_key_type_name_not_static.
  - rewrite register_curves_other.
    + unfold register. apply lookup_insert_eq.
    + intros c _ _. apply ecc_key_type_name_not_static.
Qed.

(** X2. The key type ECC_ followed by the upper-case name of a curve is
    registered exactly when the backend supports the curve, and then for
    elliptic-curve public keys with the ECDSA constructor; the key type of a
    curve that the backend does not support is not registered. *)
Theorem REGISTERED_TYPES_curve (E : Env) (c : Curve) :
  _REGISTERED_TYPES E !! ecc_key_type_name c =
    if elliptic_curve_supported E c
    then Some {| name := ecc_key_type_name c;
                 public_key_type := EllipticCurvePublicKey;
                 create_verifier := create_verifier_for_ecc E |}
    else None.
Proof.
  rewrite REGISTERED_TYPES_register_curves.
  destruct (elliptic_curve_supported E c) eqn:Hc.
  - apply register_curves_supported; [apply ECC_CURVES_all|done].
  - rewrite register_curves_other.
    + destruct (ecc_key_type_name_not_static c) as [Hrsa Hdsa].
      unfold register. rewrite !lookup_insert_ne by done. apply lookup_empty.
    + intros c' _ Hc' Heq. apply ecc_key_type_name_inj in Heq as ->. congruence.
Qed.

(** X3. The registry of the imported module holds RSA-PSS, DSA and the key
    types of the supported curves, and no other name. *)
Theorem REGISTERED_TYPES_names (E : Env) (n : string) :
  is_Some (_REGISTERED_TYPES E !! n) ↔
  n = RSA_PSS ∨ n = DSA ∨
  ∃ c, elliptic_curve_supported E c = true ∧ n = ecc_key_type_name c.
Proof.
  split.
  - intros [d Hd]. rewrite REGISTERED_TYPES_register_curves in Hd.
    apply register_curves_origin in Hd as [Hd|(c & _ & Hc & ->)].
    + unfold register in Hd.
      destruct (decide (DSA = n)) as [<-|Hdsa]; [by right; left|].
      rewrite lookup_insert_ne in Hd by done.
      destruct (decide (RSA_PSS = n)) as [<-|Hrsa]; [by left|].
      rewrite lookup_insert_ne in Hd by done. by rewrite lookup_empty in Hd.
    + right. right. by exists c.
  - rewrite REGISTERED_TYPES_register_curves.
    intros [->|[->|(c & Hc & ->)]].
    + rewrite register_curves_other;
        [|intros c _ _; apply ecc_key_type_name_not_static].
      unfold register. rewrite lookup_insert_ne by done.
      rewrite lookup_insert_eq. by eexists.
    + rewrite register_curves_other;
        [|intros c _ _; apply ecc_key_type_name_not_static].
      unfold register. rewrite lookup_insert_eq. by eexists.
    + rewrite (register_curves_supported E ECC_CURVES _ c (ECC_CURVES_all c) Hc).
      by eexists.
Qed.

Lemma stored_under_own_name_register
    (registered : gmap string SignatureKeyType) (n : string)
    (t : PublicKeyClass)
    (c : bytes -> HashAlgorithm -> PublicKey -> ImageProperties -> M (option Verifier)) :
  stored_under_own_name registered →
  stored_under_own_name (register registered n t c).
Proof.
  intros Hstored n' d. unfold register.
  destruct (decide (n = n')) as [->|Hne].
  - rewrite lookup_insert_eq. by intros [= <-].
  - rewrite lookup_insert_ne by done. apply Hstored.
Qed.

(** X4. [register] stores a descriptor under the name the descriptor
    carries: a registry in which every descriptor is stored under its own
    name stays so after a registration, the registry of the imported module
    is such a registry, and on such a registry the descriptor that [lookup]
    returns carries the name that was looked up. *)
Theorem register_stores_under_own_name (E : Env)
    (registered : gmap string SignatureKeyType) (n : string) :
  (∀ t c, stored_under_own_name registered →
          stored_under_own_name (register registered n t c))
  ∧ stored_under_own_name (_REGISTERED_TYPES E)
  ∧ (∀ d, stored_under_own_name registered →
          outcome (lookup registered n) = Returns d → name d = n).
Proof.
  split; [|split].
  - intros t c. apply stored_under_own_name_register.
  - rewrite REGISTERED_TYPES_register_curves. unfold register_curves.
    generalize ECC_CURVES.
    assert (Hstart : stored_under_own_name
              (register (register ∅ RSA_PSS RSAPublicKey (create_verifier_for_pss E))
                 DSA DSAPublicKey (create_verifier_for_dsa E))).
    { do 2 apply stored_under_own_name_register.
      intros n' d Hd. by rewrite lookup_empty in Hd. }
    revert Hstart.
    generalize (register (register ∅ RSA_PSS RSAPublicKey (create_verifier_for_pss E))
                  DSA DSAPublicKey (create_verifier_for_dsa E)).
    intros reg Hreg curves. revert reg Hreg.
    induction curves as [|curve curves IH]; intros reg Hreg; cbn [foldl]; [done|].
    apply IH. destruct (elliptic_curve_supported E curve); [|done].
    by apply stored_under_own_name_register.
  - intros d Hstored. unfold lookup, contains, subscript.
    destruct (registered !! n) as [d'|] eqn:Hd; reduce; [|done].
    intros [= <-]. by apply Hstored.
Qed.

Lemma register_stores_under_own_name_witness :
  name Sample.rsa_pss = "RSA-PSS".
Proof.
  apply (proj2 (proj2 (register_stores_under_own_name Sample.env
                         (_REGISTERED_TYPES Sample.env) "RSA-PSS"))
           Sample.rsa_pss).
  - apply (proj1 (proj2 (register_stores_under_own_name Sample.env
                           (_REGISTERED_TYPES Sample.env) "RSA-PSS"))).
  - vm_compute. reflexivity.
Defined.

(** ** The hash methods *)

(** X5. [get_hash_method] returns a hash algorithm for the four names
    SHA-224, SHA-256, SHA-384 and SHA-512, each spelled exactly so, and the
    algorithm is the one of that name; for every other string it raises the
    error of an invalid signature hash method, which carries the string.  It
    raises nothing else. *)
Theorem get_hash_method_names (hash_method_name : string) :
  get_hash_method hash_method_name =
    ([Ev_get_hash_method hash_method_name],
     if decide (hash_method_name = "SHA-224") then Returns SHA224
     else if decide (hash_method_name = "SHA-256") then Returns SHA256
     else if decide (hash_method_name = "SHA-384") then Returns SHA384
     else if decide (hash_method_name = "SHA-512") then Returns SHA512
     else Raises (SignatureVerificationError
                    (InvalidHashMethod hash_method_name))).
Proof.
  unfold get_hash_method, contains, subscript, HASH_METHODS.
  cbn [list_to_map foldr uncurry fst snd].
  repeat (case_decide; [subst hash_method_name; by vm_compute|]).
  rewrite !lookup_insert_ne by done. rewrite lookup_empty. reflexivity.
Qed.

(** ** The retrieval of the certificate *)

Lemma get_certificate_run (E : Env) (context : Context) (u : string) :
  get_certificate E context u =
    match keymgr_get E context u with
    | None =>
        ([Ev_keymgr_get context u],
         Raises (SignatureVerificationError (UnableToRetrieveCertificate u)))
    | Some cert =>
        if decide (format cert = X_509) then
          match load_der_x509_certificate E (get_encoded cert) with
          | None =>
              ([Ev_keymgr_get context u;
                Ev_load_der_x509_certificate (get_encoded cert)],
               Raises ValueError)
          | Some c =>
              ([Ev_keymgr_get context u;
                Ev_load_der_x509_certificate (get_encoded cert);
                Ev_verify_certificate c],
               if utcnow E <? not_valid_before c
               then Raises (SignatureVerificationError
                              (CertificateNotYetValid (not_valid_before c)))
               else if utcnow E >? not_valid_after c
               then Raises (SignatureVerificationError
                              (CertificateExpired (not_valid_after c)))
               else Returns c)
          end
        else
          ([Ev_keymgr_get context u],
           Raises (SignatureVerificationError
                     (InvalidCertificateFormat (format cert))))
    end.
Proof.
  unfold get_certificate, verify_certificate, CERTIFICATE_FORMATS.
  destruct (keymgr_get E context u) as [cert|]; reduce; [|done].
  destruct (decide (format cert = X_509)) as [Hformat|Hformat].
  2: { rewrite bool_decide_eq_false_2 by set_solver. reduce. done. }
  rewrite bool_decide_eq_true_2 by set_solver.
  rewrite bool_decide_eq_true_2 by done. reduce.
  destruct (load_der_x509_certificate E (get_encoded cert)) as [c|]; reduce;
    [|done].
  destruct (utcnow E <? not_valid_before c); reduce; [done|].
  destruct (utcnow E >? not_valid_after c); reduce; done.
Qed.



(** X7. The error of a certificate format that is not supported is never
    raised: the only format [CERTIFICATE_FORMATS] holds is X.509, so that a
    format which passes the first check of [get_certificate] is the one the
    second check accepts.  Neither [get_certificate] nor, over a registry of
    this module's constructors, [get_verifier] ends in that error. *)
Theorem certificate_format_not_supported_never_raised (E : Env)
    (registered : gmap string SignatureKeyType) (context : Context)
    (u : string) (image_properties : option ImageProperties)
    (cert_format : string) :
  outcome (get_certificate E context u) ≠
    Raises (SignatureVerificationError (CertificateFormatNotSupported cert_format))
  ∧ (registered_by_module E registered →
     outcome (get_verifier E registered context image_properties) ≠
       Raises (SignatureVerificationError
                 (CertificateFormatNotSupported cert_format))).
Proof.
  split.
  - rewrite get_certificate_run.
    destruct (keymgr_get E context u) as [cert|]; [|done].
    destruct (decide (format cert = X_509)); [|done].
    destruct (load_der_x509_certificate E (get_encoded cert)) as [c|]; [|done].
    cbn [outcome snd].
    destruct (utcnow E <? not_valid_before c); [done|].
    by destruct (utcnow E >? not_valid_after c).
  - intros Hreg Hraised.
    runs_of Hreg t o Hrun.
    inversion Hrun; simplify_eq.
    match goal with
    | Hresult : constructor_result _ _ |- _ => inversion Hresult; simplify_eq
    end.
    match goal with
    | Hmsg : ∀ msg, _ = _ → _ ∨ _ |- _ =>
        destruct (Hmsg _ eq_refl) as [[a [=]]|[l [=]]]
    end.
Qed.

Lemma certificate_format_not_supported_never_raised_witness :
  outcome (get_verifier Sample.env (_REGISTERED_TYPES Sample.env) "ctx"
             (Some Sample.image_properties)) ≠
    Raises (SignatureVerificationError (CertificateFormatNotSupported "X.509")).
Proof.
  apply (proj2 (certificate_format_not_supported_never_raised Sample.env
                  (_REGISTERED_TYPES Sample.env) "ctx" "cert-1"
                  (Some Sample.image_properties) "X.509")).
  apply registered_by_module_REGISTERED_TYPES.
Defined.


(** X9. The validity of a certificate moves with the clock as a window
    does: a certificate that has expired at an instant has expired at every
    later instant, one that is not yet valid at an instant is not yet valid
    at every earlier instant, and one that is valid at two instants is valid
    at every instant between them.  The environments [E], [E'] and [E'']
    stand for the clock at the instants compared. *)
Theorem verify_certificate_over_time (E E' : Env) (c : Certificate) :
  ((∃ bound, outcome (verify_certificate E c) =
       Raises (SignatureVerificationError (CertificateExpired bound))) →
   utcnow E <= utcnow E' →
   outcome (verify_certificate E' c) =
     Raises (SignatureVerificationError (CertificateExpired (not_valid_after c))))
  ∧ ((∃ bound, outcome (verify_certificate E c) =
        Raises (SignatureVerificationError (CertificateNotYetValid bound))) →
     utcnow E' <= utcnow E →
     outcome (verify_certificate E' c) =
       Raises (SignatureVerificationError
                 (CertificateNotYetValid (not_valid_before c))))
  ∧ (∀ E'', outcome (verify_certificate E c) = Returns tt →
       outcome (verify_certificate E' c) = Returns tt →
       utcnow E <= utcnow E'' <= utcnow E' →
       outcome (verify_certificate E'' c) = Returns tt).
Proof.
  split; [|split].
  - rewrite !verify_certificate_run. cbn [outcome snd].
    intros [bound Hexpired] Hlater.
    destruct (Z.ltb_spec (utcnow E) (not_valid_before c)); [done|].
    destruct (Z.gtb_spec (utcnow E) (not_valid_after c)); [|done].
    destruct (Z.ltb_spec (utcnow E') (not_valid_before c)); [lia|].
    destruct (Z.gtb_spec (utcnow E') (not_valid_after c)); [done|lia].
  - rewrite !verify_certificate_run. cbn [outcome snd].
    intros [bound Hearly] Hearlier.
    destruct (Z.ltb_spec (utcnow E) (not_valid_before c)).
    + destruct (Z.ltb_spec (utcnow E') (not_valid_before c)); [done|lia].
    + by destruct (utcnow E >? not_valid_after c).
  - intros E'' H1%verify_certificate_succeeds H2%verify_certificate_succeeds
      Hbetween.
    apply verify_certificate_succeeds. unfold in_validity_window in *. lia.
Qed.

Lemma verify_certificate_over_time_witness :
  outcome (verify_certificate (Sample.env_at 300) Sample.rsa_certificate) =
    Raises (SignatureVerificationError (CertificateExpired 200))
  ∧ outcome (verify_certificate (Sample.env_at 50) Sample.rsa_certificate) =
      Raises (SignatureVerificationError (CertificateNotYetValid 100))
  ∧ outcome (verify_certificate (Sample.env_at 150) Sample.rsa_certificate) =
      Returns tt.
Proof.
  split; [|split].
  - apply (proj1 (verify_certificate_over_time (Sample.env_at 201)
                    (Sample.env_at 300) Sample.rsa_certificate)).
    + eexists. vm_compute. reflexivity.
    + vm_compute. discriminate.
  - apply (proj1 (proj2 (verify_certificate_over_time (Sample.env_at 99)
                           (Sample.env_at 50) Sample.rsa_certificate))).
    + eexists. vm_compute. reflexivity.
    + vm_compute. discriminate.
  - apply (proj2 (proj2 (verify_certificate_over_time (Sample.env_at 100)
                           (Sample.env_at 200) Sample.rsa_certificate))
             (Sample.env_at 150)).
    + vm_compute. reflexivity.
    + vm_compute. reflexivity.
    + vm_compute. split; discriminate.
Defined.

(** ** What the constructors read and raise *)

Lemma create_verifier_for_pss_cases (E : Env) (signature : bytes)
    (hash_method : HashAlgorithm) (key : PublicKey) (props : ImageProperties) :
  (∃ a, props !! MASK_GEN_ALG = Some a ∧
        create_verifier_for_pss E signature hash_method key props =
          raise (SignatureVerificationError (InvalidMaskGenAlgorithm a)))
  ∨ (∃ l, props !! PSS_SALT_LENGTH = Some l ∧
          create_verifier_for_pss E signature hash_method key props =
            raise (SignatureVerificationError (InvalidPssSaltLength l)))
  ∨ (∃ l, create_verifier_for_pss E signature hash_method key props =
            verifier E key
              (PssArgs signature
                 {| mgf := MGF1 hash_method; salt_length := l |} hash_method)).
Proof.
  assert (Haccepted : mask_gen_accepted props →
            (∃ l, props !! PSS_SALT_LENGTH = Some l ∧
               create_verifier_for_pss E signature hash_method key props =
                 raise (SignatureVerificationError (InvalidPssSaltLength l)))
            ∨ (∃ l, create_verifier_for_pss E signature hash_method key props =
                 verifier E key
                   (PssArgs signature
                      {| mgf := MGF1 hash_method; salt_length := l |}
                      hash_method))).
  { intros Hmgf. rewrite create_verifier_for_pss_mask_gen_accepted by done.
    destruct (props !! PSS_SALT_LENGTH) as [l|]; [destruct (int E l)|].
    - right. by eexists.
    - left. by exists l.
    - right. by eexists. }
  destruct (props !! MASK_GEN_ALG) as [a|] eqn:Ha.
  - destruct (MASK_GEN_ALGORITHMS !! a) as [make|] eqn:Hmake.
    + rewrite MASK_GEN_ALGORITHMS_lookup in Hmake.
      destruct (decide (a = "MGF1")) as [->|]; [|discriminate].
      right. apply Haccepted. by right.
    + left. exists a. split; [done|].
      by apply create_verifier_for_pss_mask_gen_rejected.
  - right. apply Haccepted. by left.
Qed.

(** A constructor of the module either rejects one of the two optional
    RSA-PSS properties or hands the signature, the hash method and the key to
    the backend. *)
Lemma module_constructor_cases (E : Env)
    (c : bytes -> HashAlgorithm -> PublicKey -> ImageProperties -> M (option Verifier))
    (signature : bytes) (hash_method : HashAlgorithm) (key : PublicKey)
    (props : ImageProperties) :
  c = create_verifier_for_pss E ∨ c = create_verifier_for_ecc E ∨
  c = create_verifier_for_dsa E →
  (∃ msg, ((∃ a, msg = InvalidMaskGenAlgorithm a) ∨
           (∃ l, msg = InvalidPssSaltLength l)) ∧
          c signature hash_method key props =
            raise (SignatureVerificationError msg))
  ∨ (∃ args, args_signature args = signature ∧
             args_hash_method args = hash_method ∧
             c signature hash_method key props = verifier E key args).
Proof.
  intros [->|[->| ->]].
  - destruct (create_verifier_for_pss_cases E signature hash_method key props)
      as [(a & _ & ->)|[(l & _ & ->)|(l & ->)]].
    + left. eexists. split; [|reflexivity]. left. by eexists.
    + left. eexists. split; [|reflexivity]. right. by eexists.
    + right.
      by exists (PssArgs signature
                   {| mgf := MGF1 hash_method; salt_length := l |} hash_method).
  - right. by exists (EcdsaArgs signature hash_method).
  - right. by exists (DsaArgs signature hash_method).
Qed.

Lemma verifier_run (E : Env) (key : PublicKey) (args : VerifierArgs) :
  verifier E key args =
    ([], match backend_verifier E key args with
         | Built v => Returns (Some v)
         | BuiltFalse => Returns None
         | Unsupported => Raises UnsupportedAlgorithm
         | RejectsValue => Raises ValueError
         | RejectsType => Raises TypeError
         end).
Proof. unfold verifier. by destruct (backend_verifier E key args). Qed.

Lemma create_verifier_for_pss_frame (E : Env) (signature : bytes)
    (hash_method : HashAlgorithm) (key : PublicKey)
    (props props' : ImageProperties) :
  props !! MASK_GEN_ALG = props' !! MASK_GEN_ALG →
  props !! PSS_SALT_LENGTH = props' !! PSS_SALT_LENGTH →
  create_verifier_for_pss E signature hash_method key props =
    create_verifier_for_pss E signature hash_method key props'.
Proof.
  intros Hmgf Hsalt. unfold create_verifier_for_pss, subscript, contains.
  by rewrite Hmgf, Hsalt.
Qed.

(** X10. [create_verifier_for_pss] reads two properties only,
    mask_gen_algorithm and pss_salt_length: on two mappings that agree on
    them it does the same, whatever else they hold.  Naming MGF1 is the same
    as leaving mask_gen_algorithm out. *)
Theorem create_verifier_for_pss_reads_optional_properties (E : Env)
    (signature : bytes) (hash_method : HashAlgorithm) (key : PublicKey)
    (props props' : ImageProperties) :
  (props !! MASK_GEN_ALG = props' !! MASK_GEN_ALG →
   props !! PSS_SALT_LENGTH = props' !! PSS_SALT_LENGTH →
   create_verifier_for_pss E signature hash_method key props =
     create_verifier_for_pss E signature hash_method key props')
  ∧ create_verifier_for_pss E signature hash_method key
      (<[MASK_GEN_ALG := "MGF1"]> props) =
    create_verifier_for_pss E signature hash_method key
      (delete MASK_GEN_ALG props).
Proof.
  split.
  - apply create_verifier_for_pss_frame.
  - rewrite !create_verifier_for_pss_mask_gen_accepted.
    + rewrite lookup_insert_ne by done. by rewrite lookup_delete_ne by done.
    + left. apply lookup_delete_eq.
    + right. apply lookup_insert_eq.
Qed.

Lemma create_verifier_for_pss_reads_optional_properties_witness :
  create_verifier_for_pss Sample.env Sample.signature SHA256 Sample.rsa_key
    Sample.image_properties =
  create_verifier_for_pss Sample.env Sample.signature SHA256 Sample.rsa_key ∅.
Proof.
  apply (proj1 (create_verifier_for_pss_reads_optional_properties Sample.env
                  Sample.signature SHA256 Sample.rsa_key
                  Sample.image_properties ∅)).
  - vm_compute. reflexivity.
  - vm_compute. reflexivity.
Defined.

(** ** What [get_verifier] reads, returns and raises *)

(** [get_verifier] on two mappings that agree on the four required
    properties and on which the constructor of the key type does the same. *)
Lemma get_verifier_frame (E : Env) (registered : gmap string SignatureKeyType)
    (context : Context) (props props' : ImageProperties) :
  props !! SIGNATURE = props' !! SIGNATURE →
  props !! HASH_METHOD = props' !! HASH_METHOD →
  props !! KEY_TYPE = props' !! KEY_TYPE →
  props !! CERT_UUID = props' !! CERT_UUID →
  (∀ k d signature hash_method key,
     props !! KEY_TYPE = Some k → registered !! k = Some d →
     create_verifier d signature hash_method key props =
       create_verifier d signature hash_method key props') →
  get_verifier E registered context (Some props) =
    get_verifier E registered context (Some props').
Proof.
  intros Hs Hh Hk Hu Hconstructor.
  unfold get_verifier, should_create_verifier, contains, subscript.
  rewrite <- Hs, <- Hh, <- Hk, <- Hu.
  destruct (props !! CERT_UUID) as [u|]; [|done].
  destruct (props !! HASH_METHOD) as [h|]; [|done].
  destruct (props !! SIGNATURE) as [s|]; [|done].
  destruct (props !! KEY_TYPE) as [k|] eqn:Hkey; [|done].
  reduce.
  destruct (get_signature E s) as [t1 [signature|e1]]; reduce; [|done].
  destruct (get_hash_method h) as [t2 [hash_method|e2]]; reduce; [|done].
  unfold lookup, contains, subscript.
  destruct (registered !! k) as [d|] eqn:Hd; reduce; [|done].
  destruct (get_public_key E context u d) as [t3 [key|e3]]; reduce; [|done].
  by rewrite (Hconstructor k d signature hash_method key eq_refl Hd).
Qed.

(** X11. [get_verifier] reads six properties at most: the four required
    ones and, through the RSA-PSS constructor, mask_gen_algorithm and
    pss_salt_length.  On two mappings that agree on these six it makes the
    same calls and has the same outcome, for every registry of this module's
    constructors: no other image property bears on the verifier. *)
Theorem get_verifier_reads_six_properties (E : Env)
    (registered : gmap string SignatureKeyType) (context : Context)
    (props props' : ImageProperties) :
  registered_by_module E registered →
  (∀ k, k ∈ [SIGNATURE; HASH_METHOD; KEY_TYPE; CERT_UUID;
             MASK_GEN_ALG; PSS_SALT_LENGTH] →
        props !! k = props' !! k) →
  get_verifier E registered context (Some props) =
    get_verifier E registered context (Some props').
Proof.
  intros Hreg Hsame.
  apply get_verifier_frame; try (apply Hsame; set_solver).
  intros k d signature hash_method key _ Hd.
  destruct (Hreg k d Hd) as [->|[->| ->]]; [|done|done].
  apply create_verifier_for_pss_frame;
    apply Hsame; set_solver.
Qed.

Lemma get_verifier_reads_six_properties_witness :
  get_verifier Sample.env (_REGISTERED_TYPES Sample.env) "ctx"
    (Some (<["os_distro" := "debian"]> Sample.image_properties)) =
  get_verifier Sample.env (_REGISTERED_TYPES Sample.env) "ctx"
    (Some Sample.image_properties).
Proof.
  apply (get_verifier_reads_six_properties Sample.env
           (_REGISTERED_TYPES Sample.env) "ctx"
           (<["os_distro" := "debian"]> Sample.image_properties)
           Sample.image_properties
           (registered_by_module_REGISTERED_TYPES Sample.env)).
  intros k Hin.
  repeat (apply elem_of_cons in Hin as [->|Hin]);
    try (vm_compute; reflexivity).
  by apply elem_of_nil in Hin.
Defined.

Lemma REGISTERED_TYPES_constructor (E : Env) (k : string) (d : SignatureKeyType) :
  _REGISTERED_TYPES E !! k = Some d →
  (k = RSA_PSS ∧ create_verifier d = create_verifier_for_pss E)
  ∨ (k ≠ RSA_PSS ∧ (create_verifier d = create_verifier_for_dsa E ∨
                     create_verifier d = create_verifier_for_ecc E)).
Proof.
  intros Hd. rewrite REGISTERED_TYPES_register_curves in Hd.
  pose proof Hd as Horigin.
  apply register_curves_origin in Horigin as [Hstatic|(c & _ & Hc & ->)].
  - unfold register in Hstatic.
    destruct (decide (DSA = k)) as [<-|Hdsa].
    + rewrite lookup_insert_eq in Hstatic. injection Hstatic as <-.
      right. split; [done|by left].
    + rewrite lookup_insert_ne in Hstatic by done.
      destruct (decide (RSA_PSS = k)) as [<-|Hrsa].
      * rewrite lookup_insert_eq in Hstatic. injection Hstatic as <-. by left.
      * rewrite lookup_insert_ne in Hstatic by done.
        by rewrite lookup_empty in Hstatic.
  - rewrite (register_curves_supported E ECC_CURVES _ c (ECC_CURVES_all c) Hc)
      in Hd.
    injection Hd as <-. right.
    split; [apply ecc_key_type_name_not_static|by right].
Qed.

(** X12. For a key type other than RSA-PSS the imported module reads the
    four required properties and nothing else: on two mappings that agree on
    them, [get_verifier] makes the same calls and has the same outcome, so
    that mask_gen_algorithm and pss_salt_length, valid or not, have no effect
    on a DSA or an elliptic-curve signature. *)
Theorem get_verifier_optional_properties_only_for_rsa_pss (E : Env)
    (context : Context) (props props' : ImageProperties) (k : string) :
  props !! KEY_TYPE = Some k → k ≠ RSA_PSS →
  (∀ k', k' ∈ [SIGNATURE; HASH_METHOD; KEY_TYPE; CERT_UUID] →
         props !! k' = props' !! k') →
  get_verifier E (_REGISTERED_TYPES E) context (Some props) =
    get_verifier E (_REGISTERED_TYPES E) context (Some props').
Proof.
  intros Hk Hne Hsame.
  apply get_verifier_frame; try (apply Hsame; set_solver).
  intros k' d signature hash_method key Hk' Hd.
  assert (k' = k) as -> by congruence.
  destruct (REGISTERED_TYPES_constructor E k d Hd) as [[-> _]|[_ [-> | ->]]];
    done.
Qed.

Lemma get_verifier_optional_properties_only_for_rsa_pss_witness :
  get_verifier Sample.env (_REGISTERED_TYPES Sample.env) "ctx"
    (Some (<[KEY_TYPE := "DSA"]> Sample.image_properties)) =
  get_verifier Sample.env (_REGISTERED_TYPES Sample.env) "ctx"
    (Some (<[PSS_SALT_LENGTH := "abc"]>
             (<[KEY_TYPE := "DSA"]> Sample.image_properties))).
Proof.
  apply (get_verifier_optional_properties_only_for_rsa_pss Sample.env "ctx"
           (<[KEY_TYPE := "DSA"]> Sample.image_properties)
           (<[PSS_SALT_LENGTH := "abc"]>
              (<[KEY_TYPE := "DSA"]> Sample.image_properties)) "DSA").
  - vm_compute. reflexivity.
  - vm_compute. discriminate.
  - intros k Hin.
    repeat (apply elem_of_cons in Hin as [->|Hin]);
      try (vm_compute; reflexivity).
    by apply elem_of_nil in Hin.
Defined.

(** X13. No [KeyError] comes out of the subscripts of [get_verifier]:
    each one (the four required properties, the table of hash methods, the
    registry, the optional RSA-PSS properties and the table of mask
    generation functions) stands behind a membership test on the same
    dictionary, so that, over a registry of this module's constructors, a
    call never ends in a [KeyError], whatever the mapping lacks. *)
Theorem get_verifier_no_KeyError (E : Env)
    (registered : gmap string SignatureKeyType) (context : Context)
    (image_properties : option ImageProperties) (key : string) :
  registered_by_module E registered →
  outcome (get_verifier E registered context image_properties) ≠
    Raises (KeyError key).
Proof.
  intros Hreg Hraised.
  runs_of Hreg t o Hrun.
  inversion Hrun; simplify_eq.
  match goal with
  | Hresult : constructor_result _ _ |- _ => inversion Hresult; simplify_eq
  end.
  match goal with
  | Hd : registered !! _ = Some ?d,
    Hbuilt : create_verifier ?d ?s ?h ?pk ?props = _ |- _ =>
      destruct (module_constructor_cases E (create_verifier d) s h pk props
                  (Hreg _ _ Hd)) as [(msg & _ & Hmsg)|(args & _ & _ & Hargs)];
      rewrite Hbuilt in *
  end.
  - discriminate.
  - rewrite verifier_run in Hargs.
    destruct (backend_verifier E (public_key c) args); simplify_eq.
Qed.

Lemma get_verifier_no_KeyError_witness :
  outcome (get_verifier Sample.env (_REGISTERED_TYPES Sample.env) "ctx"
             (Some (delete HASH_METHOD Sample.image_properties))) ≠
    Raises (KeyError HASH_METHOD).
Proof.
  apply (get_verifier_no_KeyError Sample.env (_REGISTERED_TYPES Sample.env)
           "ctx" (Some (delete HASH_METHOD Sample.image_properties)) HASH_METHOD
           (registered_by_module_REGISTERED_TYPES Sample.env)).
Defined.

(** X14. A verifier that [get_verifier] returns is the object the backend
    built from the public key of the retrieved certificate, the decoded
    signature property and the hash algorithm of the hash-method property:
    the four required properties are there, the key type is registered, the
    certificate is the one the key manager holds under the identifier of
    the certificate property, it is within its validity window, and its key
    is an instance of the type the key type expects. *)
Theorem get_verifier_returns_backend_verifier (E : Env)
    (registered : gmap string SignatureKeyType) (context : Context)
    (image_properties : option ImageProperties) (v : Verifier) :
  registered_by_module E registered →
  outcome (get_verifier E registered context image_properties) = Returns v →
  ∃ props s h k u d cert c args,
    image_properties = Some props ∧
    props !! SIGNATURE = Some s ∧ props !! HASH_METHOD = Some h ∧
    props !! KEY_TYPE = Some k ∧ props !! CERT_UUID = Some u ∧
    decode_as_bytes E s = Some (args_signature args) ∧
    HASH_METHODS !! h = Some (args_hash_method args) ∧
    registered !! k = Some d ∧
    keymgr_get E context u = Some cert ∧
    load_der_x509_certificate E (get_encoded cert) = Some c ∧
    in_validity_window E c ∧
    isinstance (public_key c) (public_key_type d) = true ∧
    backend_verifier E (public_key c) args = Built v.
Proof.
  intros Hreg Hreturned.
  runs_of Hreg t o Hrun.
  inversion Hrun; simplify_eq.
  match goal with
  | Hresult : constructor_result _ _ |- _ => inversion Hresult; simplify_eq
  end.
  match goal with
  | Hd : registered !! _ = Some ?d,
    Hbuilt : create_verifier ?d ?s ?h ?key ?props = _ |- _ =>
      destruct (module_constructor_cases E (create_verifier d) s h key props
                  (Hreg _ _ Hd)) as [(msg & _ & Hmsg)|(args & Hs & Hh & Hargs)];
      rewrite Hbuilt in *
  end; [discriminate|].
  rewrite verifier_run in Hargs.
  destruct (backend_verifier E (public_key c) args) eqn:Hbackend; simplify_eq.
  subst. eexists _, _, _, _, _, _, _, _, args. split_and!; eauto.
Qed.

Lemma get_verifier_returns_backend_verifier_witness :
  ∃ props s h k u d cert c args,
    Some Sample.image_properties = Some props ∧
    props !! SIGNATURE = Some s ∧ props !! HASH_METHOD = Some h ∧
    props !! KEY_TYPE = Some k ∧ props !! CERT_UUID = Some u ∧
    decode_as_bytes Sample.env s = Some (args_signature args) ∧
    HASH_METHODS !! h = Some (args_hash_method args) ∧
    _REGISTERED_TYPES Sample.env !! k = Some d ∧
    keymgr_get Sample.env "ctx" u = Some cert ∧
    load_der_x509_certificate Sample.env (get_encoded cert) = Some c ∧
    in_validity_window Sample.env c ∧
    isinstance (public_key c) (public_key_type d) = true ∧
    backend_verifier Sample.env (public_key c) args =
      Built {| verifier_key := Sample.rsa_key;
               verifier_args :=
                 PssArgs Sample.signature
                   {| mgf := MGF1 SHA256; salt_length := MAX_LENGTH |} SHA256 |}.
Proof.
  apply (get_verifier_returns_backend_verifier Sample.env
           (_REGISTERED_TYPES Sample.env) "ctx" (Some Sample.image_properties)
           _ (registered_by_module_REGISTERED_TYPES Sample.env)).
  vm_compute. reflexivity.
Defined.

(** X15. The only request [get_verifier] makes to the key manager is for
    the identifier in the certificate property of the mapping, with the
    context it was called with: no other identifier and no other context
    reach the key manager. *)
Theorem get_verifier_key_manager_request (E : Env)
    (registered : gmap string SignatureKeyType) (context : Context)
    (image_properties : option ImageProperties) (c : Context) (u : string) :
  registered_by_module E registered →
  Ev_keymgr_get c u ∈ trace (get_verifier E registered context image_properties) →
  c = context ∧
  ∃ props, image_properties = Some props ∧ props !! CERT_UUID = Some u.
Proof.
  intros Hreg Hin.
  runs_of Hreg t o Hrun.
  inversion Hrun; subst; unfold_calls; elem_cases Hin.
  all: injection Hin as -> ->; split; [done|]; by eexists.
Qed.

Lemma get_verifier_key_manager_request_witness :
  "ctx" = "ctx" ∧
  ∃ props, Some Sample.image_properties = Some props ∧
           props !! CERT_UUID = Some "cert-1".
Proof.
  apply (get_verifier_key_manager_request Sample.env
           (_REGISTERED_TYPES Sample.env) "ctx" (Some Sample.image_properties)
           "ctx" "cert-1" (registered_by_module_REGISTERED_TYPES Sample.env)).
  vm_compute. set_solver.
Defined.

(** ** The deprecated path *)

Lemma module_constructor_frame (E : Env)
    (c : bytes -> HashAlgorithm -> PublicKey -> ImageProperties -> M (option Verifier))
    (signature : bytes) (hash_method : HashAlgorithm) (key : PublicKey)
    (props props' : ImageProperties) :
  c = create_verifier_for_pss E ∨ c = create_verifier_for_ecc E ∨
  c = create_verifier_for_dsa E →
  props !! MASK_GEN_ALG = props' !! MASK_GEN_ALG →
  props !! PSS_SALT_LENGTH = props' !! PSS_SALT_LENGTH →
  c signature hash_method key props = c signature hash_method key props'.
Proof.
  intros [->|[->| ->]] Hmgf Hsalt; [|done|done].
  by apply create_verifier_for_pss_frame.
Qed.

Lemma should_verify_signature_false (props : ImageProperties) :
  (∃ k, k ∈ [OLD_SIGNATURE; OLD_HASH_METHOD; OLD_KEY_TYPE; OLD_CERT_UUID] ∧
        props !! k = None) →
  should_verify_signature (Some props) = false.
Proof.
  intros (k & Hin & Hk). unfold should_verify_signature, contains.
  repeat (apply elem_of_cons in Hin as [->|Hin]);
    [rewrite Hk; by rewrite ?andb_false_r ..|by apply elem_of_nil in Hin].
Qed.

(** X16. [verify_signature] asks for the four properties of the deprecated
    scheme: on [None], and on a mapping in which one of signature,
    signature_hash_method, signature_key_type and
    signature_certificate_uuid is missing, it raises the error of missing
    signature metadata before any other step or collaborator is called,
    whatever the mapping holds under the names of the current scheme. *)
Theorem verify_signature_missing_metadata (E : Env)
    (verify : Verifier → bytes → bool)
    (registered : gmap string SignatureKeyType) (context : Context)
    (checksum_hash : string) :
  verify_signature E verify registered context checksum_hash None =
    ([], LegacyRaises (Shared (SignatureVerificationError
                                 MissingSignatureMetadata)))
  ∧ ∀ props k,
      k ∈ [OLD_SIGNATURE; OLD_HASH_METHOD; OLD_KEY_TYPE; OLD_CERT_UUID] →
      props !! k = None →
      verify_signature E verify registered context checksum_hash (Some props) =
        ([], LegacyRaises (Shared (SignatureVerificationError
                                     MissingSignatureMetadata))).
Proof.
  split; [reflexivity|].
  intros props k Hin Hk. unfold verify_signature.
  rewrite should_verify_signature_false by eauto. reflexivity.
Qed.

Lemma verify_signature_missing_metadata_witness :
  verify_signature Sample.env sample_verify (_REGISTERED_TYPES Sample.env)
    "ctx" "abc" (Some Sample.image_properties) =
    ([], LegacyRaises (Shared (SignatureVerificationError
                                 MissingSignatureMetadata))).
Proof.
  apply (proj2 (verify_signature_missing_metadata Sample.env sample_verify
                  (_REGISTERED_TYPES Sample.env) "ctx" "abc")
           Sample.image_properties OLD_SIGNATURE).
  - set_solver.
  - vm_compute. reflexivity.
Defined.

(** X17. [verify_signature] is [get_verifier] under the names of the
    deprecated scheme, followed by the verification of the checksum.  When
    a mapping holds under the deprecated names what another holds under the
    current names, and both agree on the two optional RSA-PSS properties,
    then, over a registry of this module's constructors, [verify_signature]
    on the first makes the calls [get_verifier] makes on the second after
    its check of the required properties, and its outcome is the one of
    [get_verifier] carried over: [True] when the verifier accepts the
    checksum, the error of a failed verification when it does not, the own
    wording of the error of a false verifier, and every other exception as
    it is. *)
Theorem verify_signature_as_get_verifier (E : Env)
    (verify : Verifier → bytes → bool)
    (registered : gmap string SignatureKeyType) (context : Context)
    (checksum_hash : string) (props props' : ImageProperties) :
  registered_by_module E registered →
  props !! OLD_SIGNATURE = props' !! SIGNATURE →
  props !! OLD_HASH_METHOD = props' !! HASH_METHOD →
  props !! OLD_KEY_TYPE = props' !! KEY_TYPE →
  props !! OLD_CERT_UUID = props' !! CERT_UUID →
  props !! MASK_GEN_ALG = props' !! MASK_GEN_ALG →
  props !! PSS_SALT_LENGTH = props' !! PSS_SALT_LENGTH →
  snd (verify_signature E verify registered context checksum_hash (Some props)) =
    legacy_outcome verify checksum_hash
      (outcome (get_verifier E registered context (Some props')))
  ∧ trace (get_verifier E registered context (Some props')) =
      Ev_should_create_verifier ::
      fst (verify_signature E verify registered context checksum_hash
             (Some props)).
Proof.
  intros Hreg Hs Hh Hk Hu Hmgf Hsalt.
  unfold verify_signature, get_verifier, should_verify_signature,
    should_create_verifier, contains, subscript.
  rewrite <- Hs, <- Hh, <- Hk, <- Hu.
  destruct (props !! OLD_CERT_UUID) as [u|]; [|done].
  destruct (props !! OLD_HASH_METHOD) as [h|]; [|done].
  destruct (props !! OLD_SIGNATURE) as [s|]; [|done].
  destruct (props !! OLD_KEY_TYPE) as [k|]; [|done].
  unfold get_signature, get_hash_method, lookup, get_public_key,
    get_certificate, verify_certificate, subscript, contains,
    CERTIFICATE_FORMATS.
  reduce.
  destruct (decode_as_bytes E s) as [signature|]; reduce; [|done].
  destruct (HASH_METHODS !! h) as [hash_method|]; reduce; [|done].
  destruct (registered !! k) as [d|] eqn:Hd; reduce; [|done].
  destruct (keymgr_get E context u) as [cert|]; reduce; [|done].
  destruct (decide (format cert = X_509)) as [Hformat|Hformat].
  2: { rewrite bool_decide_eq_false_2 by set_solver. reduce. done. }
  rewrite bool_decide_eq_true_2 by set_solver.
  rewrite bool_decide_eq_true_2 by done. reduce.
  destruct (load_der_x509_certificate E (get_encoded cert)) as [c|]; reduce;
    [|done].
  destruct (utcnow E <? not_valid_before c); reduce; [done|].
  destruct (utcnow E >? not_valid_after c); reduce; [done|].
  destruct (isinstance (public_key c) (public_key_type d)); reduce; [|done].
  rewrite (module_constructor_frame E (create_verifier d) signature hash_method
             (public_key c) props props' (Hreg k d Hd) Hmgf Hsalt).
  destruct (module_constructor_run E (create_verifier d) signature hash_method
              (public_key c) props' (Hreg k d Hd)) as (built & -> & Hmsg).
  unfold except_UnsupportedAlgorithm.
  destruct built as [[v|]|e]; reduce; cbn [legacy_outcome]; [|done|].
  - by destruct (verify v (to_utf8 checksum_hash)).
  - destruct e as [msg| | | |]; reduce; cbn [legacy_outcome]; try done.
    destruct (Hmsg msg eq_refl) as [[a ->]|[l ->]]; done.
Qed.

Lemma verify_signature_as_get_verifier_witness :
  snd (verify_signature Sample.env sample_verify (_REGISTERED_TYPES Sample.env)
         "ctx" "abc" (Some sample_old_image_properties)) =
    legacy_outcome sample_verify "abc"
      (outcome (get_verifier Sample.env (_REGISTERED_TYPES Sample.env) "ctx"
                  (Some Sample.image_properties)))
  ∧ trace (get_verifier Sample.env (_REGISTERED_TYPES Sample.env) "ctx"
             (Some Sample.image_properties)) =
      Ev_should_create_verifier ::
      fst (verify_signature Sample.env sample_verify
             (_REGISTERED_TYPES Sample.env) "ctx" "abc"
             (Some sample_old_image_properties)).
Proof.
  apply (verify_signature_as_get_verifier Sample.env sample_verify
           (_REGISTERED_TYPES Sample.env) "ctx" "abc"
           sample_old_image_properties Sample.image_properties
           (registered_by_module_REGISTERED_TYPES Sample.env));
    vm_compute; reflexivity.
Defined.

(** X18. [verify_signature] returns [True] only for a checksum that the
    verifier built by the backend accepts: over a registry of this module's
    constructors, when it returns, the backend built a verifier from the
    public key of a certificate within its validity window, the decoded
    signature and the hash algorithm named by the properties, and that
    verifier accepts the UTF-8 bytes of the checksum.  It never returns
    [False]: a checksum that is not accepted raises the error of a failed
    verification. *)
Theorem verify_signature_returns_only_verified (E : Env)
    (verify : Verifier → bytes → bool)
    (registered : gmap string SignatureKeyType) (context : Context)
    (checksum_hash : string) (props : ImageProperties) :
  registered_by_module E registered →
  snd (verify_signature E verify registered context checksum_hash (Some props)) =
    ReturnsTrue →
  ∃ s h u cert c args v,
    props !! OLD_SIGNATURE = Some s ∧ props !! OLD_HASH_METHOD = Some h ∧
    props !! OLD_CERT_UUID = Some u ∧
    decode_as_bytes E s = Some (args_signature args) ∧
    HASH_METHODS !! h = Some (args_hash_method args) ∧
    keymgr_get E context u = Some cert ∧
    load_der_x509_certificate E (get_encoded cert) = Some c ∧
    in_validity_window E c ∧
    backend_verifier E (public_key c) args = Built v ∧
    verify v (to_utf8 checksum_hash) = true.
Proof.
  intros Hreg.
  unfold verify_signature, should_verify_signature, contains, subscript.
  destruct (props !! OLD_CERT_UUID) as [u|]; [|done].
  destruct (props !! OLD_HASH_METHOD) as [h|]; [|done].
  destruct (props !! OLD_SIGNATURE) as [s|]; [|done].
  destruct (props !! OLD_KEY_TYPE) as [k|]; [|done].
  unfold get_signature, get_hash_method, lookup, get_public_key,
    get_certificate, verify_certificate, subscript, contains,
    CERTIFICATE_FORMATS.
  reduce.
  destruct (decode_as_bytes E s) as [signature|] eqn:Hdecode; reduce; [|done].
  destruct (HASH_METHODS !! h) as [hash_method|] eqn:Hhash; reduce; [|done].
  destruct (registered !! k) as [d|] eqn:Hd; reduce; [|done].
  destruct (keymgr_get E context u) as [cert|] eqn:Hcert; reduce; [|done].
  destruct (decide (format cert = X_509)) as [Hformat|Hformat].
  2: { rewrite bool_decide_eq_false_2 by set_solver. reduce. done. }
  rewrite bool_decide_eq_true_2 by set_solver.
  rewrite bool_decide_eq_true_2 by done. reduce.
  destruct (load_der_x509_certificate E (get_encoded cert)) as [c|] eqn:Hload;
    reduce; [|done].
  destruct (Z.ltb_spec (utcnow E) (not_valid_before c)); reduce; [done|].
  destruct (Z.gtb_spec (utcnow E) (not_valid_after c)); reduce; [done|].
  destruct (isinstance (public_key c) (public_key_type d)); reduce; [|done].
  destruct (module_constructor_cases E (create_verifier d) signature hash_method
              (public_key c) props (Hreg k d Hd))
    as [(msg & _ & ->)|(args & <- & <- & ->)]; [done|].
  rewrite verifier_run. unfold except_UnsupportedAlgorithm.
  destruct (backend_verifier E (public_key c) args) as [v| | | |] eqn:Hbackend;
    reduce; try done.
  destruct (verify v (to_utf8 checksum_hash)) eqn:Hverify; [|done].
  intros _. eexists s, h, u, cert, c, args, v.
  split_and!; try done; unfold in_validity_window; lia.
Qed.

Lemma verify_signature_returns_only_verified_witness :
  ∃ s h u cert c args v,
    sample_old_image_properties !! OLD_SIGNATURE = Some s ∧
    sample_old_image_properties !! OLD_HASH_METHOD = Some h ∧
    sample_old_image_properties !! OLD_CERT_UUID = Some u ∧
    decode_as_bytes Sample.env s = Some (args_signature args) ∧
    HASH_METHODS !! h = Some (args_hash_method args) ∧
    keymgr_get Sample.env "ctx" u = Some cert ∧
    load_der_x509_certificate Sample.env (get_encoded cert) = Some c ∧
    in_validity_window Sample.env c ∧
    backend_verifier Sample.env (public_key c) args = Built v ∧
    sample_verify v (to_utf8 "abc") = true.
Proof.
  apply (verify_signature_returns_only_verified Sample.env sample_verify
           (_REGISTERED_TYPES Sample.env) "ctx" "abc"
           sample_old_image_properties
           (registered_by_module_REGISTERED_TYPES Sample.env)).
  vm_compute. reflexivity.
Defined.

(** ** Where two errors of [get_verifier] come from *)

(** X19. Over a registry of this module's constructors, the error of an
    algorithm that is unsupported on this system is raised only when the
    backend refused a construction with [UnsupportedAlgorithm], and the
    error that occurred while creating the verifier only when the backend
    returned a false object: both on a call for the public key of a
    certificate whose key was derived in this run. *)
Theorem get_verifier_backend_errors (E : Env)
    (registered : gmap string SignatureKeyType) (context : Context)
    (image_properties : option ImageProperties) :
  registered_by_module E registered →
  (outcome (get_verifier E registered context image_properties) =
     Raises (SignatureVerificationError AlgorithmUnsupported) →
   ∃ c args, Ev_public_key c ∈
               trace (get_verifier E registered context image_properties) ∧
             backend_verifier E (public_key c) args = Unsupported)
  ∧ (outcome (get_verifier E registered context image_properties) =
       Raises (SignatureVerificationError VerifierCreationError) →
     ∃ c args, Ev_public_key c ∈
                 trace (get_verifier E registered context image_properties) ∧
               backend_verifier E (public_key c) args = BuiltFalse).
Proof.
  intros Hreg. split; intros Hraised.
  all: runs_of Hreg t o Hrun.
  all: inversion Hrun; simplify_eq.
  all: match goal with
       | Hresult : constructor_result _ _ |- _ => inversion Hresult; simplify_eq
       end.
  all: try match goal with
       | Hmsg : ∀ msg, Raises (SignatureVerificationError _) = _ → _ ∨ _ |- _ =>
           by destruct (Hmsg _ eq_refl) as [[a [=]]|[l [=]]]
       end.
  all: match goal with
       | Hd : _ !! _ = Some ?d,
         Hbuilt : create_verifier ?d ?s ?h ?key ?props = _ |- _ =>
           destruct (module_constructor_cases E (create_verifier d) s h key props
                       (Hreg _ _ Hd))
             as [(msg & _ & Hmsg')|(args & _ & _ & Hargs)];
           rewrite Hbuilt in *; [discriminate|]
       end.
  all: rewrite verifier_run in Hargs.
  all: destruct (backend_verifier E (public_key c) args) eqn:Hbackend;
         simplify_eq.
  all: exists c, args; split; [unfold_calls|done].
  all: do 7 apply list_elem_of_further; apply list_elem_of_here.
Qed.

Lemma get_verifier_backend_errors_witness :
  ∃ c args,
    Ev_public_key c ∈
      trace (get_verifier sample_refusing_env
               (_REGISTERED_TYPES sample_refusing_env) "ctx"
               (Some Sample.image_properties)) ∧
    backend_verifier sample_refusing_env (public_key c) args = Unsupported.
Proof.
  apply (proj1 (get_verifier_backend_errors sample_refusing_env
                  (_REGISTERED_TYPES sample_refusing_env) "ctx"
                  (Some Sample.image_properties)
                  (registered_by_module_REGISTERED_TYPES sample_refusing_env))).
  vm_compute. reflexivity.
Defined.
